(** * symlinker: a shallow embedding of [main.go] and its specification

    The program reads a line-oriented configuration file and, for every
    entry [<symlink_path> <actual_path>], makes sure the parent directory of
    the link exists and (re)creates the symbolic link.  With [--dry-run] it
    only reports what it would do.

    Layout of this development:
    - [GoStrings]: Go strings as byte strings, with the functions of the Go
      standard library that [main.go] calls on them ([strings.Fields],
      [strings.Contains], [strings.Repeat], the regular expression
      [^\s*#], [os.Expand], [filepath.Dir], [filepath.Join]);
    - [OS]: the interface of the operating-system calls of [main.go];
    - section [Program]: the functions of [main.go], written in a small
      state-and-trace monad over an arbitrary [OS];
    - [MemFS]: a small in-memory file system implementing [OS], used to run
      the program on concrete inputs;
    - the vocabulary of the specification (what a comment line, an entry,
      a white-space line, a fatal condition are);
    - the properties of the specification, proved for every [OS], and
      their instances on runs over [MemFS]. *)

From Stdlib Require Import String Ascii List Bool Arith Lia NArith DecimalString.
Import ListNotations.
Local Open Scope list_scope.
Local Open Scope string_scope.

(* ===================================================================== *)
(** * Go strings and the library functions used on them *)
(* ===================================================================== *)

Module GoStrings.

(** A Go [string] is an immutable sequence of bytes: Rocq's [string]. *)

Definition byte_is (n : nat) (c : ascii) : bool := Nat.eqb (nat_of_ascii c) n.

Definition byte_in (lo hi : nat) (c : ascii) : bool :=
  Nat.leb lo (nat_of_ascii c) && Nat.leb (nat_of_ascii c) hi.

(** [s == ""] *)
Definition isEmpty (s : string) : bool :=
  match s with EmptyString => true | String _ _ => false end.

(** [strings.Contains(s, "$")], for a one-byte needle. *)
Fixpoint containsByte (c : ascii) (s : string) : bool :=
  match s with
  | EmptyString => false
  | String d s' => Ascii.eqb d c || containsByte c s'
  end.

(** [strings.Repeat(s, count)] *)
Fixpoint Repeat (s : string) (count : nat) : string :=
  match count with
  | O => ""
  | S n => s ++ Repeat s n
  end.

(** [strings.Join(elems, sep)] *)
Fixpoint Join (elems : list string) (sep : string) : string :=
  match elems with
  | [] => ""
  | [e] => e
  | e :: rest => e ++ sep ++ Join rest sep
  end.

(** The line feed, written [\n] in the Go source. *)
Definition nl : string := String (ascii_of_nat 10) "".

(** [%d] of a non-negative [int]. *)
Definition itoa (n : nat) : string := NilEmpty.string_of_uint (Nat.to_uint n).

(** ** [unicode.IsSpace], on the UTF-8 encoding

    [strings.Fields] splits around runs of runes for which
    [unicode.IsSpace] holds: U+0009..U+000D, U+0020, U+0085, U+00A0,
    U+1680, U+2000..U+200A, U+2028, U+2029, U+202F, U+205F, U+3000.
    [spaceWidth s] is the number of bytes of the white-space rune encoded
    at the head of [s], and [0] when [s] does not start with one.  Every
    such encoding starts with a byte outside 0x80..0xBF, which Go's decoder
    never consumes as a continuation byte, so a byte-wise scan meets these
    encodings exactly where the rune-wise scan of [strings.Fields] does. *)
Definition spaceWidth (s : string) : nat :=
  match s with
  | EmptyString => 0
  | String c0 r0 =>
    if byte_in 9 13 c0 || byte_is 32 c0 then 1
    else match r0 with
    | EmptyString => 0
    | String c1 r1 =>
      if byte_is 194 c0 then                       (* U+0085, U+00A0 *)
        if byte_is 133 c1 || byte_is 160 c1 then 2 else 0
      else match r1 with
      | EmptyString => 0
      | String c2 _ =>
        if byte_is 225 c0 then                     (* U+1680 *)
          if byte_is 154 c1 && byte_is 128 c2 then 3 else 0
        else if byte_is 226 c0 then
          if byte_is 128 c1 then                   (* U+2000..200A, 2028, 2029, 202F *)
            if byte_in 128 138 c2 || byte_is 168 c2 || byte_is 169 c2
               || byte_is 175 c2 then 3 else 0
          else if byte_is 129 c1 then              (* U+205F *)
            if byte_is 159 c2 then 3 else 0
          else 0
        else if byte_is 227 c0 then                (* U+3000 *)
          if byte_is 128 c1 && byte_is 128 c2 then 3 else 0
        else 0
      end
    end
  end.

(** The field in progress is closed (and kept) when it is not empty. *)
Definition flushField (cur : string) (rest : list string) : list string :=
  if isEmpty cur then rest else cur :: rest.

(** The scan of [strings.FieldsFunc(s, unicode.IsSpace)]: [skip] counts the
    remaining bytes of a white-space rune already recognised, [cur] is the
    field being collected. *)
Fixpoint fieldsFrom (skip : nat) (cur : string) (s : string) : list string :=
  match s with
  | EmptyString => flushField cur []
  | String c s' =>
    match skip with
    | S k => fieldsFrom k cur s'
    | O =>
      match spaceWidth s with
      | O => fieldsFrom 0 (cur ++ String c "") s'
      | S k => flushField cur (fieldsFrom k "" s')
      end
    end
  end.

(** [strings.Fields(s)] *)
Definition Fields (s : string) : list string := fieldsFrom 0 "" s.

(** ** The regular expression [^\s*#]

    In Go's [regexp] syntax [\s] is the class [[\t\n\f\r ]] (it does not
    contain the vertical tab, nor any non-ASCII space). *)
Definition isRegexpSpace (c : ascii) : bool :=
  byte_is 9 c || byte_is 10 c || byte_is 12 c || byte_is 13 c || byte_is 32 c.

(** [regexp.MustCompile(`^\s*#`).MatchString(s)] *)
Fixpoint commentRegex_MatchString (s : string) : bool :=
  match s with
  | EmptyString => false
  | String c s' =>
    if byte_is 35 c then true
    else if isRegexpSpace c then commentRegex_MatchString s'
    else false
  end.

(** ** [os.Expand] *)

Definition isShellSpecialVar (c : ascii) : bool :=
  byte_is 42 c || byte_is 35 c || byte_is 36 c || byte_is 64 c
  || byte_is 33 c || byte_is 63 c || byte_is 45 c || byte_in 48 57 c.

Definition isAlphaNum (c : ascii) : bool :=
  byte_is 95 c || byte_in 48 57 c || byte_in 97 122 c || byte_in 65 90 c.

(** The longest prefix of alphanumeric bytes. *)
Fixpoint takeAlphaNum (s : string) : string :=
  match s with
  | EmptyString => ""
  | String c s' => if isAlphaNum c then String c (takeAlphaNum s') else ""
  end.

(** The bytes before the first closing brace, when there is one. *)
Fixpoint untilBrace (s : string) : option string :=
  match s with
  | EmptyString => None
  | String c s' =>
    if byte_is 125 c then Some ""
    else match untilBrace s' with
         | Some n => Some (String c n)
         | None => None
         end
  end.

(** [getShellName(s)], for the non-empty [s] that follows a dollar sign:
    the name and the number of bytes it takes. *)
Definition getShellName (s : string) : string * nat :=
  match s with
  | EmptyString => ("", 0)
  | String c0 r0 =>
    if byte_is 123 c0 then
      match untilBrace r0 with
      | Some n => if isEmpty n then ("", 2) else (n, String.length n + 2)
      | None => ("", 1)
      end
    else if isShellSpecialVar c0 then (String c0 "", 1)
    else (takeAlphaNum s, String.length (takeAlphaNum s))
  end.

(** The loop of [os.Expand(s, mapping)]; [skip] counts the bytes of a
    reference still to be passed over. *)
Fixpoint expandFrom (mapping : string -> string) (skip : nat) (s : string) : string :=
  match s with
  | EmptyString => ""
  | String c s' =>
    match skip with
    | S k => expandFrom mapping k s'
    | O =>
      if byte_is 36 c && negb (isEmpty s') then
        let '(name, w) := getShellName s' in
        (if isEmpty name
         then (match w with O => String c "" | S _ => "" end)
         else mapping name)
        ++ expandFrom mapping w s'
      else String c (expandFrom mapping 0 s')
    end
  end.

Definition Expand (s : string) (mapping : string -> string) : string :=
  expandFrom mapping 0 s.

(** ** [path/filepath], on Unix *)

Definition isSlash (c : ascii) : bool := byte_is 47 c.

(** The elements of a path between its separators. *)
Fixpoint splitSlash (cur : string) (s : string) : list string :=
  match s with
  | EmptyString => [cur]
  | String c s' =>
    if isSlash c then cur :: splitSlash "" s'
    else splitSlash (cur ++ String c "") s'
  end.

(** The lexical processing of [filepath.Clean]: [kept] holds the elements
    written so far, last first; [dotdots] counts the leading [..] elements
    of a path that is not rooted. *)
Fixpoint cleanElems (rooted : bool) (dotdots : nat) (kept : list string)
         (elems : list string) : nat * list string :=
  match elems with
  | [] => (dotdots, rev kept)
  | e :: rest =>
    if isEmpty e || String.eqb e "." then cleanElems rooted dotdots kept rest
    else if String.eqb e ".." then
      match kept with
      | _ :: kept' => cleanElems rooted dotdots kept' rest
      | [] => if rooted then cleanElems rooted dotdots [] rest
              else cleanElems rooted (S dotdots) [] rest
      end
    else cleanElems rooted dotdots (e :: kept) rest
  end.

(** [filepath.Clean(path)] *)
Definition Clean (path : string) : string :=
  match path with
  | EmptyString => "."
  | String c _ =>
    let rooted := isSlash c in
    let '(dd, elems) := cleanElems rooted 0 [] (splitSlash "" path) in
    let out := Join (repeat ".." dd ++ elems) "/" in
    if rooted then "/" ++ out
    else if isEmpty out then "." else out
  end.

(** [path[:i+1]] for the index [i] of the last separator of [path]. *)
Fixpoint uptoLastSlash (path : string) : string :=
  match path with
  | EmptyString => ""
  | String c s' =>
    if containsByte "/"%char s' then String c (uptoLastSlash s')
    else if isSlash c then String c "" else ""
  end.

(** [filepath.Dir(path)] *)
Definition Dir (path : string) : string := Clean (uptoLastSlash path).

(** [filepath.Join(elem...)]: empty leading elements are dropped, the rest
    is joined with separators and cleaned. *)
Fixpoint filepath_Join (elem : list string) : string :=
  match elem with
  | [] => ""
  | e :: rest => if isEmpty e then filepath_Join rest else Clean (Join elem "/")
  end.

End GoStrings.

Import GoStrings.

(* ===================================================================== *)
(** * The operating system *)
(* ===================================================================== *)

(** A Go [error] value, as far as [main.go] looks at it: its message
    ([err.Error()], which is what [%s] and [%w] print) and whether
    [os.IsNotExist] holds of it.  A [nil] error is [None]. *)
Record error : Type := mkError { Error : string; IsNotExist : bool }.

(** [os.IsNotExist(err)] *)
Definition os_IsNotExist (err : option error) : bool :=
  match err with
  | Some e => IsNotExist e
  | None => false
  end.

(** [fmt.Errorf]: a new error with the formatted message.  [os.IsNotExist]
    does not look through the wrapping of [%w]. *)
Definition fmt_Errorf (msg : string) : error := mkError msg false.

(** A Go result pair [(v, err)]. *)
Inductive result (A : Type) : Type :=
| Ok (v : A)
| Failed (err : error).
Arguments Ok {A} v.
Arguments Failed {A} err.

(** What a [bufio.Scanner] over an opened file yields: the lines that
    [scanner.Scan()] delivers one by one, and the value of [scanner.Err()]
    once [Scan] has returned false. *)
Record File : Type := mkFile { file_lines : list string; file_scan_err : option error }.

(** The calls [main.go] makes to the operating system, over an abstract
    state [FS] of the system.  [os.Stat], [os.Lstat], opening and reading a
    file and resolving the executable leave that state as it is; only
    [os.MkdirAll], [os.RemoveAll] and [os.Symlink] return a new one. *)
Class OS (FS : Type) : Type := {
  os_Stat : FS -> string -> option error;
  os_Lstat : FS -> string -> option error;
  os_MkdirAll : FS -> string -> N -> FS * option error;
  os_RemoveAll : FS -> string -> FS * option error;
  os_Symlink : FS -> string -> string -> FS * option error;
  os_Open : FS -> string -> result File;
  os_Executable : FS -> result string;
  filepath_EvalSymlinks : FS -> string -> result string
}.

(** What the program does, in the order it does it: what it writes, the
    calls it makes to the system, and (as ghost events) the entries into its
    two per-entry operations. *)
Inductive event : Type :=
| Stdout (text : string)
| Stderr (text : string)
| SysStat (path : string)
| SysLstat (path : string)
| SysMkdirAll (path : string) (perm : N)
| SysRemoveAll (path : string)
| SysSymlink (oldname newname : string)
| SysOpen (path : string)
| SysClose (path : string)
| SysExecutable
| SysEvalSymlinks (path : string)
| Enter_ensureDirExists (path : string) (dryRun : bool)
| Enter_createSymlink (targetPath symlinkPath : string) (dryRun : bool).

(** The calls that change the file system. *)
Definition is_mutation (e : event) : bool :=
  match e with
  | SysMkdirAll _ _ | SysRemoveAll _ | SysSymlink _ _ => true
  | _ => false
  end.

(** Every call to the file system, reading or writing. *)
Definition is_fs_call (e : event) : bool :=
  match e with
  | Stdout _ | Stderr _ | Enter_ensureDirExists _ _ | Enter_createSymlink _ _ _ => false
  | _ => true
  end.

Definition is_output (e : event) : bool :=
  match e with
  | Stdout _ | Stderr _ => true
  | _ => false
  end.

Definition is_entry_call (e : event) : bool :=
  match e with
  | Enter_ensureDirExists _ _ | Enter_createSymlink _ _ _ => true
  | _ => false
  end.

(** The command line after [flag.Parse()]. *)
Record Flags : Type := mkFlags {
  flag_dryRun : bool;
  flag_help : bool;
  flag_Args : list string
}.

(* ===================================================================== *)
(** * The program *)
(* ===================================================================== *)

Section Program.

Context {FS : Type} {os : OS FS}.

(** The environment of the process, as [os.Environ()] lists it. *)
Variable environ : list (string * string).

(** [os.Getenv(key)]: the first entry for [key], the empty string when
    there is none. *)
Definition os_Getenv (key : string) : string :=
  match find (fun kv => String.eqb (fst kv) key) environ with
  | Some kv => snd kv
  | None => ""
  end.

(** [os.ExpandEnv(s)] *)
Definition os_ExpandEnv (s : string) : string := Expand s os_Getenv.

(** ** A computation: state of the system in, result, state and trace out *)

Definition M (A : Type) : Type := FS -> A * FS * list event.

Definition ret {A : Type} (a : A) : M A := fun fs => (a, fs, []).

Definition bind {A B : Type} (m : M A) (k : A -> M B) : M B :=
  fun fs =>
    let '(a, fs1, t1) := m fs in
    let '(b, fs2, t2) := k a fs1 in
    (b, fs2, (t1 ++ t2)%list).

Notation "x <- m ;; k" := (bind m (fun x => k))
  (at level 61, m at next level, right associativity).
Notation "m ;; k" := (bind m (fun _ => k))
  (at level 61, right associativity).

Definition emit (e : event) : M unit := fun fs => (tt, fs, [e]).

(** [fmt.Printf] with its arguments formatted; [fmt.Println(s)] prints
    [s] and a line feed. *)
Definition Printf (text : string) : M unit := emit (Stdout text).
Definition Println (text : string) : M unit := emit (Stdout (text ++ nl)).

Definition Stat (path : string) : M (option error) :=
  fun fs => (os_Stat fs path, fs, [SysStat path]).

Definition Lstat (path : string) : M (option error) :=
  fun fs => (os_Lstat fs path, fs, [SysLstat path]).

Definition MkdirAll (path : string) (perm : N) : M (option error) :=
  fun fs => let '(fs', err) := os_MkdirAll fs path perm in (err, fs', [SysMkdirAll path perm]).

Definition RemoveAll (path : string) : M (option error) :=
  fun fs => let '(fs', err) := os_RemoveAll fs path in (err, fs', [SysRemoveAll path]).

Definition Symlink (oldname newname : string) : M (option error) :=
  fun fs => let '(fs', err) := os_Symlink fs oldname newname in
            (err, fs', [SysSymlink oldname newname]).

Definition Open (path : string) : M (result File) :=
  fun fs => (os_Open fs path, fs, [SysOpen path]).

Definition Close (path : string) : M unit := emit (SysClose path).

Definition Executable : M (result string) :=
  fun fs => (os_Executable fs, fs, [SysExecutable]).

Definition EvalSymlinks (path : string) : M (result string) :=
  fun fs => (filepath_EvalSymlinks fs path, fs, [SysEvalSymlinks path]).

(** The permission bits [0755]. *)
Definition perm_0755 : N := 7 * 64 + 5 * 8 + 5.

(** ** [main.go] *)

(** [ensureDirExists] creates a directory if it doesn't exist. *)
Definition ensureDirExists (path : string) (dryRun : bool) : M (option error) :=
  emit (Enter_ensureDirExists path dryRun) ;;
  err <- Stat path ;;
  if os_IsNotExist err then
    if dryRun then
      Printf ("[DRY RUN] Would create directory: " ++ path ++ nl) ;;
      ret None
    else
      Printf ("Creating directory: " ++ path ++ nl) ;;
      MkdirAll path perm_0755
  else
    ret None.

(** [expandPath] expands all environment variables in a string. *)
Definition expandPath (path : string) : string := os_ExpandEnv path.

(** The first statement of [createSymlink]: what is at the link path is
    removed (or reported); [Some err] is the early return. *)
Definition removeExisting (symlinkPath : string) (dryRun : bool) : M (option error) :=
  err <- Lstat symlinkPath ;;
  match err with
  | None =>
    if dryRun then
      Printf ("[DRY RUN] Would remove existing: " ++ symlinkPath ++ nl) ;;
      ret None
    else
      Printf ("Removing existing: " ++ symlinkPath ++ nl) ;;
      err <- RemoveAll symlinkPath ;;
      match err with
      | Some e => ret (Some (fmt_Errorf ("error removing existing path: " ++ Error e)))
      | None => ret None
      end
  | Some _ => ret None
  end.

(** [createSymlink] creates a symbolic link. *)
Definition createSymlink (targetPath symlinkPath : string) (dryRun : bool)
  : M (option error) :=
  emit (Enter_createSymlink targetPath symlinkPath dryRun) ;;
  early <- removeExisting symlinkPath dryRun ;;
  match early with
  | Some err => ret (Some err)
  | None =>
    if dryRun then
      Printf ("[DRY RUN] Would create symlink: " ++ symlinkPath ++ " -> "
              ++ targetPath ++ nl) ;;
      ret None
    else
      Printf ("Creating symlink: " ++ symlinkPath ++ " -> " ++ targetPath ++ nl) ;;
      Symlink targetPath symlinkPath
  end.

(** The warnings of the scan loop. *)
Definition warnInvalidLine (lineNumber : nat) (line : string) : string :=
  "Warning: Invalid line " ++ itoa lineNumber ++ " in config file: " ++ line ++ nl.

Definition warnInvalidPaths (lineNumber : nat) (line : string) : string :=
  "Warning: Invalid paths at line " ++ itoa lineNumber ++ " in config file: "
  ++ line ++ nl.

Definition warnUnexpanded (lineNumber : nat) (line : string) : string :=
  "Warning: Unexpanded environment variables at line " ++ itoa lineNumber ++ ": "
  ++ line ++ nl.

(** The part of the loop body after the two paths have passed the checks:
    it ends the iteration with [None] or returns from [setupSymlinks] with
    [Some err]. *)
Definition applyEntry (dryRun : bool) (lineNumber : nat) (fields : list string)
           (symlinkPath actualPath : string) : M (option error) :=
  let symlinkDir := Dir symlinkPath in
  (if dryRun then
     Printf nl ;;
     Printf ("[DRY RUN] Line " ++ itoa lineNumber ++ ": " ++ nth 0 fields ""
             ++ " -> " ++ nth 1 fields "" ++ nl) ;;
     Printf ("[DRY RUN] Expanded: " ++ symlinkPath ++ " -> " ++ actualPath
             ++ " (dir: " ++ symlinkDir ++ ")" ++ nl)
   else ret tt) ;;
  err <- ensureDirExists symlinkDir dryRun ;;
  match err with
  | Some e =>
    ret (Some (fmt_Errorf ("error creating directory " ++ symlinkDir ++ ": " ++ Error e)))
  | None =>
    err <- createSymlink actualPath symlinkPath dryRun ;;
    match err with
    | Some e =>
      ret (Some (fmt_Errorf ("error creating symlink at line " ++ itoa lineNumber
                             ++ ": " ++ Error e)))
    | None => ret None
    end
  end.

(** One iteration of [for scanner.Scan()], [lineNumber] being the counter
    after its increment and [line] the text of the line: [None] when the
    iteration ends ([continue] or the end of the body), [Some err] when
    [setupSymlinks] returns [err] from inside the loop.  The counter is a Go
    [int]; it counts lines of one file, whose size in bytes fits an [int64],
    so it stays below 2^63 and is written as a natural number. *)
Definition loopBody (dryRun : bool) (lineNumber : nat) (line : string)
  : M (option error) :=
  if isEmpty line || commentRegex_MatchString line then ret None
  else
    let fields := Fields line in
    if Nat.ltb (length fields) 2 then
      Printf (warnInvalidLine lineNumber line) ;;
      ret None
    else
      let symlinkPath := expandPath (nth 0 fields "") in
      let actualPath := expandPath (nth 1 fields "") in
      if isEmpty symlinkPath || isEmpty actualPath then
        Printf (warnInvalidPaths lineNumber line) ;;
        ret None
      else
        (if containsByte "$"%char symlinkPath || containsByte "$"%char actualPath
         then Printf (warnUnexpanded lineNumber line)
         else ret tt) ;;
        applyEntry dryRun lineNumber fields symlinkPath actualPath.

(** The scan loop over the lines still to be read, [lineNumber] being the
    number of lines read so far. *)
Fixpoint scanLoop (dryRun : bool) (lineNumber : nat) (lines : list string)
  : M (option error) :=
  match lines with
  | [] => ret None
  | line :: rest =>
    r <- loopBody dryRun (S lineNumber) line ;;
    match r with
    | Some err => ret (Some err)
    | None => scanLoop dryRun (S lineNumber) rest
    end
  end.

(** [setupSymlinks] reads a configuration file and creates symlinks. *)
Definition setupSymlinks (configFilePath : string) (dryRun : bool) : M (option error) :=
  err <- Stat configFilePath ;;
  if os_IsNotExist err then
    ret (Some (fmt_Errorf ("error: Config file not found: " ++ configFilePath)))
  else
    Printf ((if dryRun then "[DRY RUN] Would set up symlinks from config: "
             else "Setting up symlinks from config: ") ++ configFilePath ++ nl) ;;
    opened <- Open configFilePath ;;
    match opened with
    | Failed err => ret (Some (fmt_Errorf ("error opening config file: " ++ Error err)))
    | Ok file =>
      res <- (r <- scanLoop dryRun 0 (file_lines file) ;;
              match r with
              | Some err => ret (Some err)
              | None =>
                match file_scan_err file with
                | Some err =>
                  ret (Some (fmt_Errorf ("error reading config file: " ++ Error err)))
                | None =>
                  Println (if dryRun
                           then "[DRY RUN] Symlink setup complete! (No changes made)"
                           else "Symlink setup complete!") ;;
                  ret None
                end
              end) ;;
      Close configFilePath ;;        (* defer file.Close() *)
      ret res
    end.

Definition getExecutablePath : M (result string) :=
  r <- Executable ;;
  match r with
  | Failed err => ret (Failed err)
  | Ok exe =>
    r <- EvalSymlinks exe ;;
    match r with
    | Failed err => ret (Failed err)
    | Ok realPath => ret (Ok (Dir realPath))
    end
  end.

(** [flag.PrintDefaults()] for the two flags of the program: one write to
    standard error per flag, in the order of their names. *)
Definition flag_PrintDefaults : M unit :=
  emit (Stderr ("  -dry-run" ++ nl ++ "    " ++ String (ascii_of_nat 9) ""
                ++ "Show what would be done without making changes" ++ nl)) ;;
  emit (Stderr ("  -help" ++ nl ++ "    " ++ String (ascii_of_nat 9) ""
                ++ "Show help message" ++ nl)).

Definition showHelp : M unit :=
  Println "Symlink Manager - Create and manage symlinks from configuration files" ;;
  Println (nl ++ "Usage:") ;;
  Println "  symlinker [flags] [config-file]" ;;
  Println (nl ++ "Flags:") ;;
  flag_PrintDefaults ;;
  Println (nl ++ "Environment Variable Expansion:") ;;
  Println "  Supports all environment variables in format $VAR or ${VAR}" ;;
  Println "  Examples: $HOME, $USER, $DOTFILES_HOME, ${XDG_CONFIG_HOME}" ;;
  Println (nl ++ "Required Environment Variables:") ;;
  Println "  Make sure to set the environment variables used in your config file" ;;
  Println ("  Example: export DOTFILES_HOME=" ++ String (ascii_of_nat 34) ""
           ++ "$HOME/dotfiles" ++ String (ascii_of_nat 34) "") ;;
  Println (nl ++ "Examples:") ;;
  Println "  symlinker                    # Use default config file" ;;
  Println "  symlinker custom.conf        # Use custom config file" ;;
  Println "  symlinker --dry-run          # Preview changes without applying" ;;
  Println "  symlinker --dry-run my.conf  # Preview with custom config".

Definition commonVars : list string :=
  ["HOME"; "USER"; "XDG_CONFIG_HOME"; "DOTFILES_HOME"; "TOOLS_DIR"; "NOTES_DIR"].

(** The loop [for _, varName := range commonVars] of
    [printEnvironmentInfo]. *)
Fixpoint printVars (vars : list string) : M unit :=
  match vars with
  | [] => ret tt
  | varName :: rest =>
    (let value := os_Getenv varName in
     if negb (isEmpty value) then Printf ("  " ++ varName ++ ": " ++ value ++ nl)
     else ret tt) ;;
    printVars rest
  end.

(** The seven bytes that start the banner in the source file. *)
Definition bannerMark : string :=
  String (ascii_of_nat 195) (String (ascii_of_nat 176) (String (ascii_of_nat 197)
  (String (ascii_of_nat 184) (String (ascii_of_nat 226) (String (ascii_of_nat 128)
  (String (ascii_of_nat 157) "")))))).

Definition printEnvironmentInfo (dryRun : bool) : M unit :=
  if dryRun then
    Println (bannerMark ++ " DRY RUN MODE - No changes will be made") ;;
    Println ("=" ++ Repeat "=" 50) ;;
    Printf ("Current environment variables:" ++ nl) ;;
    printVars commonVars ;;
    Println ("=" ++ Repeat "=" 50)
  else ret tt.

(** The configuration file of a run: the first positional argument when
    there is one ([flag.NArg() > 0]), otherwise [symlinker.conf] in the
    directory of the executable. *)
Definition configFilePathFor (args : list string) (execDir : string) : string :=
  let defaultConfigFile := filepath_Join [execDir; "symlinker.conf"] in
  match args with
  | arg0 :: _ => arg0
  | [] => defaultConfigFile
  end.

(** [main], from the parsed command line to the exit status ([0] for a
    normal return, [1] for [os.Exit(1)]). *)
Definition main (flags : Flags) : M nat :=
  if flag_help flags then
    showHelp ;;
    ret 0
  else
    r <- getExecutablePath ;;
    match r with
    | Failed err =>
      Printf ("Error getting executable path: " ++ Error err ++ nl) ;;
      ret 1
    | Ok execDir =>
      let configFilePath := configFilePathFor (flag_Args flags) execDir in
      printEnvironmentInfo (flag_dryRun flags) ;;
      err <- setupSymlinks configFilePath (flag_dryRun flags) ;;
      match err with
      | Some e =>
        Printf ("Error: " ++ Error e ++ nl) ;;
        ret 1
      | None => ret 0
      end
    end.

(** ** Reading a run *)

Definition result_of {A : Type} (r : A * FS * list event) : A := fst (fst r).
Definition fs_of {A : Type} (r : A * FS * list event) : FS := snd (fst r).
Definition trace_of {A : Type} (r : A * FS * list event) : list event := snd r.

End Program.

Arguments M FS A : clear implicits.

(* ===================================================================== *)
(** * An in-memory file system *)
(* ===================================================================== *)

(** A small implementation of [OS], to run the program on concrete inputs:
    a table from paths to what is there, a list of paths that cannot be
    reached (every call on them is refused: permission denied), a list of
    directories mounted read-only (nothing at or below them can be created
    or removed), and the path of the running executable when it can be
    determined. *)
Module MemFS.

Inductive node : Type :=
| Directory
| Regular (content : File)
| Link (target : string).

Record fs : Type := mkFs {
  nodes : list (string * node);
  denied : list string;
  readonly : list string;
  executable : option string
}.

Definition lookup (tbl : list (string * node)) (path : string) : option node :=
  match find (fun kv => String.eqb (fst kv) path) tbl with
  | Some kv => Some (snd kv)
  | None => None
  end.

Definition is_denied (s : fs) (path : string) : bool :=
  existsb (String.eqb path) (denied s).

(** Whether [path] is [root] or lies below it. *)
Definition within (root path : string) : bool :=
  String.eqb path root || String.prefix (root ++ "/") path.

Definition is_readonly (s : fs) (path : string) : bool :=
  existsb (fun root => within root path) (readonly s).

(** The table of [s] replaced by [tbl]. *)
Definition with_nodes (s : fs) (tbl : list (string * node)) : fs :=
  mkFs tbl (denied s) (readonly s) (executable s).

(** [*PathError]: operation, path and cause. *)
Definition pathError (op path cause : string) (notExist : bool) : error :=
  mkError (op ++ " " ++ path ++ ": " ++ cause) notExist.

Definition EACCES (op path : string) : error := pathError op path "permission denied" false.
Definition ENOENT (op path : string) : error :=
  pathError op path "no such file or directory" true.
Definition ENOTDIR (op path : string) : error := pathError op path "not a directory" false.
Definition EEXIST (op path : string) : error := pathError op path "file exists" false.
Definition EISDIR (op path : string) : error := pathError op path "is a directory" false.
Definition EROFS (op path : string) : error :=
  pathError op path "read-only file system" false.

(** Following symbolic links from [path], at most [fuel] of them: where the
    chain ends and what is there. *)
Fixpoint resolve (fuel : nat) (tbl : list (string * node)) (path : string)
  : option (string * node) :=
  match lookup tbl path with
  | Some (Link target) =>
    match fuel with
    | O => None
    | S fuel' => resolve fuel' tbl target
    end
  | Some n => Some (path, n)
  | None => None
  end.

Definition maxLinks : nat := 40.

Definition mem_Lstat (s : fs) (path : string) : option error :=
  if is_denied s path then Some (EACCES "lstat" path)
  else match lookup (nodes s) path with
       | Some _ => None
       | None => Some (ENOENT "lstat" path)
       end.

Definition mem_Stat (s : fs) (path : string) : option error :=
  if is_denied s path then Some (EACCES "stat" path)
  else match resolve maxLinks (nodes s) path with
       | Some _ => None
       | None => Some (ENOENT "stat" path)
       end.

(** The proper ancestors of a path, nearest first. *)
Fixpoint ancestors (fuel : nat) (path : string) : list string :=
  match fuel with
  | O => []
  | S fuel' =>
    let d := Dir path in
    if String.eqb d path then [] else d :: ancestors fuel' d
  end.

Definition add_dir (tbl : list (string * node)) (path : string) : list (string * node) :=
  match lookup tbl path with
  | Some _ => tbl
  | None => (path, Directory) :: tbl
  end.

Definition mem_MkdirAll (s : fs) (path : string) (perm : N) : fs * option error :=
  if is_denied s path then (s, Some (EACCES "mkdir" path))
  else match resolve maxLinks (nodes s) path with
       | Some (_, Directory) => (s, None)
       | Some _ => (s, Some (ENOTDIR "mkdir" path))
       | None =>
         if is_readonly s path then (s, Some (EROFS "mkdir" path))
         else (with_nodes s (fold_left add_dir
                               (path :: ancestors (String.length path) path) (nodes s)),
               None)
       end.

Definition mem_RemoveAll (s : fs) (path : string) : fs * option error :=
  if is_denied s path then (s, Some (EACCES "unlinkat" path))
  else match lookup (nodes s) path with
       | None => (s, None)
       | Some _ =>
         if is_readonly s path then (s, Some (EROFS "unlinkat" path))
         else (with_nodes s (filter (fun kv => negb (within path (fst kv))) (nodes s)),
               None)
       end.

Definition linkError (op oldname newname cause : string) : error :=
  mkError (op ++ " " ++ oldname ++ " " ++ newname ++ ": " ++ cause) false.

Definition mem_Symlink (s : fs) (oldname newname : string) : fs * option error :=
  if is_denied s newname then (s, Some (linkError "symlink" oldname newname "permission denied"))
  else match lookup (nodes s) newname with
       | Some _ => (s, Some (linkError "symlink" oldname newname "file exists"))
       | None =>
         match resolve maxLinks (nodes s) (Dir newname) with
         | Some (_, Directory) =>
           if is_readonly s newname
           then (s, Some (linkError "symlink" oldname newname "read-only file system"))
           else (with_nodes s ((newname, Link oldname) :: nodes s), None)
         | _ => (s, Some (linkError "symlink" oldname newname "no such file or directory"))
         end
       end.

Definition mem_Open (s : fs) (path : string) : result File :=
  if is_denied s path then Failed (EACCES "open" path)
  else match resolve maxLinks (nodes s) path with
       | Some (_, Regular content) => Ok content
       | Some (_, _) => Ok (mkFile [] (Some (EISDIR "read" path)))
       | None => Failed (ENOENT "open" path)
       end.

Definition mem_Executable (s : fs) : result string :=
  match executable s with
  | Some path => Ok path
  | None => Failed (mkError "cannot find executable path" false)
  end.

Definition mem_EvalSymlinks (s : fs) (path : string) : result string :=
  match resolve maxLinks (nodes s) path with
  | Some (real, _) => Ok real
  | None => Failed (ENOENT "lstat" path)
  end.

#[export] Instance MemOS : OS fs := {
  os_Stat := mem_Stat;
  os_Lstat := mem_Lstat;
  os_MkdirAll := mem_MkdirAll;
  os_RemoveAll := mem_RemoveAll;
  os_Symlink := mem_Symlink;
  os_Open := mem_Open;
  os_Executable := mem_Executable;
  filepath_EvalSymlinks := mem_EvalSymlinks
}.

(** A home directory with a configuration file next to the executable. *)
Definition sample_environ : list (string * string) :=
  [("HOME", "/home/u"); ("TOOLS_DIR", "/opt/tools")].

Definition zshrc_line : string := "$HOME/.zshrc $TOOLS_DIR/.zshrc".
Definition gitconfig_line : string :=
  "$HOME/.config/git/config $TOOLS_DIR/git/.gitconfig".

Definition sample_conf : File :=
  mkFile ["# ZSH config";
          "";
          zshrc_line;
          gitconfig_line;
          "$HOME/.vimrc";
          "   "]
         None.

Definition sample_fs : fs :=
  mkFs [("/", Directory);
        ("/home", Directory);
        ("/home/u", Directory);
        ("/home/u/.zshrc", Regular (mkFile ["old"] None));
        ("/usr/bin", Directory);
        ("/usr/bin/symlinker", Regular (mkFile [] None));
        ("/usr/bin/symlinker.conf", Regular sample_conf)]
       [] []
       (Some "/usr/bin/symlinker").

(** The same system with the home directory mounted read-only. *)
Definition readonly_fs : fs :=
  mkFs (nodes sample_fs) [] ["/home/u"] (executable sample_fs).

(** The same system with a read-only [/home/u/.config]. *)
Definition config_readonly_fs : fs :=
  mkFs (("/home/u/.config", Directory) :: nodes sample_fs) [] ["/home/u/.config"]
       (executable sample_fs).

(** The same system with [/home/u/.config/git] out of reach. *)
Definition denied_fs : fs :=
  mkFs (nodes sample_fs) ["/home/u/.config/git"] [] (executable sample_fs).

(** The same system when the path of the executable cannot be found. *)
Definition no_executable_fs : fs :=
  mkFs (nodes sample_fs) [] [] None.

(** The same system with the configuration file out of reach. *)
Definition unreadable_conf_fs : fs :=
  mkFs (nodes sample_fs) ["/usr/bin/symlinker.conf"] [] (executable sample_fs).

(** The same system with a configuration file whose reading breaks off
    after the first entry. *)
Definition interrupted_conf : File :=
  mkFile [zshrc_line] (Some (pathError "read" "/etc/links.conf" "input/output error" false)).

Definition interrupted_fs : fs :=
  mkFs (("/etc/links.conf", Regular interrupted_conf) :: nodes sample_fs) [] []
       (executable sample_fs).

End MemFS.

Import MemFS.

(* ===================================================================== *)
(** * Vocabulary of the specification *)
(* ===================================================================== *)

(** Every byte of [s] satisfies [p]. *)
Fixpoint allBytes (p : ascii -> bool) (s : string) : bool :=
  match s with
  | EmptyString => true
  | String c s' => p c && allBytes p s'
  end.

(** A comment line: white space (of the regular expression), then [#]. *)
Definition comment_line (line : string) : Prop :=
  exists ws rest, line = ws ++ "#" ++ rest /\ allBytes isRegexpSpace ws = true.

(** The UTF-8 encodings of the white-space characters of Unicode, those of
    [unicode.IsSpace]. *)
Definition utf8 (bytes : list nat) : string :=
  string_of_list_ascii (map ascii_of_nat bytes).

Definition spaceRunes : list string :=
  map utf8
    [[9]; [10]; [11]; [12]; [13]; [32];
     [194; 133]; [194; 160];
     [225; 154; 128];
     [226; 128; 128]; [226; 128; 129]; [226; 128; 130]; [226; 128; 131];
     [226; 128; 132]; [226; 128; 133]; [226; 128; 134]; [226; 128; 135];
     [226; 128; 136]; [226; 128; 137]; [226; 128; 138];
     [226; 128; 168]; [226; 128; 169]; [226; 128; 175];
     [226; 129; 159];
     [227; 128; 128]].

(** A string made of white-space characters only. *)
Inductive whitespace_only : string -> Prop :=
| ws_empty : whitespace_only ""
| ws_rune : forall r s, In r spaceRunes -> whitespace_only s -> whitespace_only (r ++ s).

Section Vocabulary.

Context {FS : Type} {os : OS FS}.
Variable environ : list (string * string).

(** A line that is neither blank nor a comment, has at least two fields,
    and whose first two fields expand to the non-empty [symlinkPath] and
    [actualPath]. *)
Definition entry_line (line symlinkPath actualPath : string) : Prop :=
  line <> "" /\ commentRegex_MatchString line = false /\
  exists f0 f1 more,
    Fields line = f0 :: f1 :: more /\
    symlinkPath = expandPath environ f0 /\ actualPath = expandPath environ f1 /\
    symlinkPath <> "" /\ actualPath <> "".

(** ** Reading traces *)

(** [m] changes nothing: it hands back the file system it was given and
    makes none of the three changing calls. *)
Definition quiet {A : Type} (m : M FS A) : Prop :=
  forall fs, fs_of (m fs) = fs /\ filter is_mutation (trace_of (m fs)) = [].

(** What [setupSymlinks] does before it reads the first line. *)
Definition openingEvents (configFilePath : string) (dryRun : bool) : list event :=
  [SysStat configFilePath;
   Stdout ((if dryRun then "[DRY RUN] Would set up symlinks from config: "
            else "Setting up symlinks from config: ") ++ configFilePath ++ nl);
   SysOpen configFilePath].

Definition completeEvent (dryRun : bool) : event :=
  Stdout ((if dryRun then "[DRY RUN] Symlink setup complete! (No changes made)"
           else "Symlink setup complete!") ++ nl).

Definition notFoundError (configFilePath : string) : error :=
  fmt_Errorf ("error: Config file not found: " ++ configFilePath).

(** The errors of the two operations, as the loop wraps them. *)
Definition wrapDirError (symlinkDir : string) (e : error) : error :=
  fmt_Errorf ("error creating directory " ++ symlinkDir ++ ": " ++ Error e).

Definition wrapLinkError (lineNumber : nat) (e : error) : error :=
  fmt_Errorf ("error creating symlink at line " ++ itoa lineNumber ++ ": " ++ Error e).

(** The events of a dry run over the lines still to be read, [k] lines
    having been read: those of each iteration, one line after the other,
    all on the same file system since a dry run does not change it. *)
Fixpoint lineEvents (k : nat) (lines : list string) (fs : FS) : list event :=
  match lines with
  | [] => []
  | line :: rest =>
    (trace_of (loopBody environ true (S k) line fs) ++ lineEvents (S k) rest fs)%list
  end.

(** ** The claims that need amending, as they are written *)

(** What C2 says of an entry, as it is written: the iteration enters
    [ensureDirExists] once, on the directory of the link path, and then
    [createSymlink] once. *)
Definition one_ensure_then_one_link
           (dryRun : bool) (n : nat) (line symlinkPath actualPath : string) (fs : FS) : Prop :=
  filter is_entry_call (trace_of (loopBody environ dryRun n line fs))
  = [Enter_ensureDirExists (Dir symlinkPath) dryRun;
     Enter_createSymlink actualPath symlinkPath dryRun].

(** What C6 says of [createSymlink] in apply mode, as it is written: what
    [os.Lstat] finds at the link path is removed, and then, in every case,
    the link is created. *)
Definition removes_then_links (targetPath symlinkPath : string) (fs : FS) : Prop :=
  filter is_mutation (trace_of (createSymlink targetPath symlinkPath false fs))
  = (match os_Lstat fs symlinkPath with
     | None => [SysRemoveAll symlinkPath]
     | Some _ => []
     end ++ [SysSymlink targetPath symlinkPath])%list.

(** The line that reports a missing configuration file. *)
Definition notFoundMessage (configFilePath : string) : event :=
  Stdout ("Error: " ++ Error (notFoundError configFilePath) ++ nl).

(** What C3 says of a run whose configuration file is missing, as it is
    written: the exit status is not zero and the first thing the program
    writes is the report of the missing file. *)
Definition not_found_reported_first
           (dryRun : bool) (args : list string) (configFilePath : string) (fs : FS) : Prop :=
  let run := main environ (mkFlags dryRun false args) fs in
  result_of run <> 0 /\
  exists rest, filter is_output (trace_of run) = notFoundMessage configFilePath :: rest.

(** ** Fatal conditions *)

(** The four conditions under which a dry run ends with an error: the
    path of the executable cannot be resolved, the configuration file does
    not exist, it cannot be opened, or reading it fails. *)
Definition dry_run_fatal (args : list string) (fs : FS) : Prop :=
  match result_of (getExecutablePath fs) with
  | Failed _ => True
  | Ok execDir =>
    let configFilePath := configFilePathFor args execDir in
    os_IsNotExist (os_Stat fs configFilePath) = true \/
    match os_Open fs configFilePath with
    | Failed _ => True
    | Ok file => file_scan_err file <> None
    end
  end.

(** The three failures of an entry in apply mode, [fs] being the file
    system when the entry is reached: the directory of the link path is
    absent and [os.MkdirAll] fails; or the directory step succeeds and then
    either something is at the link path and [os.RemoveAll] fails, or
    nothing stands in the way and [os.Symlink] fails. *)
Definition entry_step_fails (symlinkPath actualPath : string) (fs : FS) : Prop :=
  let symlinkDir := Dir symlinkPath in
  (os_IsNotExist (os_Stat fs symlinkDir) = true /\
   snd (os_MkdirAll fs symlinkDir perm_0755) <> None)
  \/
  (result_of (ensureDirExists symlinkDir false fs) = None /\
   let fs1 := fs_of (ensureDirExists symlinkDir false fs) in
   ((os_Lstat fs1 symlinkPath = None /\ snd (os_RemoveAll fs1 symlinkPath) <> None)
    \/
    (os_Lstat fs1 symlinkPath = None /\ snd (os_RemoveAll fs1 symlinkPath) = None /\
     snd (os_Symlink (fst (os_RemoveAll fs1 symlinkPath)) actualPath symlinkPath) <> None)
    \/
    (os_Lstat fs1 symlinkPath <> None /\
     snd (os_Symlink fs1 actualPath symlinkPath) <> None))).

(** ** Further vocabulary *)

(** A line that the loop passes over: blank, comment, fewer than two
    fields, or a first or second field that expands to nothing. *)
Definition skipped_line (line : string) : bool :=
  isEmpty line || commentRegex_MatchString line
  || Nat.ltb (length (Fields line)) 2
  || isEmpty (expandPath environ (nth 0 (Fields line) ""))
  || isEmpty (expandPath environ (nth 1 (Fields line) "")).

(** The variables of [commonVars] that have a value, each with its line
    in the listing of a dry run. *)
Definition environmentLines : list event :=
  map (fun varName => Stdout ("  " ++ varName ++ ": " ++ os_Getenv environ varName ++ nl))
      (filter (fun varName => negb (isEmpty (os_Getenv environ varName))) commonVars).

(** The three changes an entry can make in apply mode. *)
Definition entryMutations (symlinkPath actualPath : string) : list event :=
  [SysMkdirAll (Dir symlinkPath) perm_0755; SysRemoveAll symlinkPath;
   SysSymlink actualPath symlinkPath].

(** [picked] keeps some of the elements of [l], in their order. *)
Fixpoint sublist_of (picked l : list event) : Prop :=
  match picked, l with
  | [], _ => True
  | _ :: _, [] => False
  | x :: picked', y :: l' => (x = y /\ sublist_of picked' l') \/ sublist_of picked l'
  end.

(** A warning among the lines written. *)
Definition is_warning (e : event) : bool :=
  match e with
  | Stdout text => String.prefix "Warning: " text
  | _ => false
  end.

(** The warnings that a line calls for, from its text alone. *)
Definition lineWarnings (lineNumber : nat) (line : string) : list event :=
  if isEmpty line || commentRegex_MatchString line then []
  else if Nat.ltb (length (Fields line)) 2
       then [Stdout (warnInvalidLine lineNumber line)]
  else
    let symlinkPath := expandPath environ (nth 0 (Fields line) "") in
    let actualPath := expandPath environ (nth 1 (Fields line) "") in
    if isEmpty symlinkPath || isEmpty actualPath
    then [Stdout (warnInvalidPaths lineNumber line)]
    else if containsByte "$"%char symlinkPath || containsByte "$"%char actualPath
         then [Stdout (warnUnexpanded lineNumber line)]
    else [].

(** Every change in [t] comes right after a line written to standard
    output; [after_output] tells whether the event before [t] is such a
    line. *)
Fixpoint announced (after_output : bool) (t : list event) : bool :=
  match t with
  | [] => true
  | e :: t' => (negb (is_mutation e) || after_output) && announced (is_output e) t'
  end.

(** [m] announces every change it makes. *)
Definition announcing {A : Type} (m : M FS A) : Prop :=
  forall fs, announced false (trace_of (m fs)) = true.

End Vocabulary.

(* ===================================================================== *)
(** * Properties *)
(* ===================================================================== *)

Lemma isEmpty_false (s : string) : isEmpty s = false <-> s <> "".
Proof. destruct s; simpl; split; congruence. Qed.

(** ** The comment test *)

Lemma comment_line_matches (line : string) :
  comment_line line -> commentRegex_MatchString line = true.
Proof.
  intros (ws & rest & -> & Hws). induction ws as [|c ws IH]; simpl in *.
  - reflexivity.
  - apply andb_prop in Hws as [Hc Hws].
    rewrite Hc, (IH Hws). destruct (byte_is 35 c); reflexivity.
Qed.

Lemma commentRegex_matches_comment_line (line : string) :
  commentRegex_MatchString line = true -> comment_line line.
Proof.
  induction line as [|c line IH]; simpl; [discriminate|].
  destruct (byte_is 35 c) eqn:Hc.
  - intros _. exists "", line. split; [|reflexivity]. simpl. f_equal.
    unfold byte_is in Hc. apply Nat.eqb_eq in Hc.
    rewrite <- (ascii_nat_embedding c), Hc. reflexivity.
  - destruct (isRegexpSpace c) eqn:Hs; [|discriminate].
    intros H. destruct (IH H) as (ws & rest & -> & Hws).
    exists (String c ws), rest. simpl. rewrite Hs, Hws. split; reflexivity.
Qed.

(** ** White space and [strings.Fields] *)

Lemma spaceRune_cases (r : string) :
  In r spaceRunes ->
  exists c k tl, r = String c tl /\ String.length tl = k /\
    (forall s, spaceWidth (r ++ s) = S k) /\ byte_is 35 c = false /\
    (k <> 0 -> isRegexpSpace c = false).
Proof.
  intros H. simpl in H.
  repeat (destruct H as [<- | H];
          [eexists _, _, _;
           split; [reflexivity|];
           split; [reflexivity|];
           split; [intros s; reflexivity|];
           split; [reflexivity|];
           intros Hk; first [reflexivity | exfalso; apply Hk; reflexivity] | ]).
  destruct H.
Qed.

Lemma fieldsFrom_skip (tl s : string) (cur : string) :
  fieldsFrom (String.length tl) cur (tl ++ s) = fieldsFrom 0 cur s.
Proof. induction tl; simpl; auto. Qed.

Lemma Fields_spaceRune (r s : string) :
  In r spaceRunes -> Fields (r ++ s) = Fields s.
Proof.
  intros H. destruct (spaceRune_cases r H) as (c & k & tl & -> & Hk & Hw & _).
  unfold Fields. change (String c tl ++ s) with (String c (tl ++ s)).
  cbn [fieldsFrom]. change (String c (tl ++ s)) with (String c tl ++ s).
  rewrite Hw. unfold flushField. simpl. rewrite <- Hk. apply fieldsFrom_skip.
Qed.

Lemma Fields_whitespace_only (s : string) : whitespace_only s -> Fields s = [].
Proof.
  induction 1 as [|r s Hr _ IH]; [reflexivity|].
  rewrite Fields_spaceRune; assumption.
Qed.

Lemma commentRegex_whitespace_only (s : string) :
  whitespace_only s -> commentRegex_MatchString s = false.
Proof.
  induction 1 as [|r s Hr _ IH]; [reflexivity|].
  destruct (spaceRune_cases r Hr) as (c & k & tl & -> & Hk & _ & Hc & Hsp).
  simpl. rewrite Hc. destruct tl as [|d tl].
  - simpl. rewrite IH. destruct (isRegexpSpace c); reflexivity.
  - rewrite Hsp; [reflexivity|]. simpl in Hk. lia.
Qed.

(** ** The library functions on the examples of the specification *)

Example Fields_two_paths :
  Fields "  $HOME/.zshrc   $TOOLS_DIR/.zshrc extra " =
  ["$HOME/.zshrc"; "$TOOLS_DIR/.zshrc"; "extra"].
Proof. reflexivity. Qed.

Example Fields_non_ascii_space :
  Fields ("a" ++ utf8 [194; 160] ++ "b" ++ utf8 [226; 128; 131] ++ "c") = ["a"; "b"; "c"].
Proof. reflexivity. Qed.

Example expandPath_set_variables :
  expandPath sample_environ "$HOME/.zshrc" = "/home/u/.zshrc" /\
  expandPath sample_environ "${TOOLS_DIR}/.zshrc" = "/opt/tools/.zshrc".
Proof. split; reflexivity. Qed.

Example expandPath_unset_variable :
  expandPath sample_environ "$UNDEFINED_VAR/.foo" = "/.foo" /\
  expandPath sample_environ "$UNDEFINED_VAR" = "".
Proof. split; reflexivity. Qed.

Example Dir_of_paths :
  map Dir ["/home/u/.zshrc"; "/home/u/.config/git/config"; ".zshrc"; "/.foo"; "a/../b/c"]
  = ["/home/u"; "/home/u/.config/git"; "."; "/"; "b"].
Proof. reflexivity. Qed.

Example default_config_path :
  configFilePathFor [] "/usr/bin" = "/usr/bin/symlinker.conf" /\
  configFilePathFor ["my.conf"; "ignored"] "/usr/bin" = "my.conf".
Proof. split; reflexivity. Qed.

(** The comment pattern and [strings.Fields] do not agree on white space:
    after a vertical tab or a no-break space the [#] does not make a
    comment, and the line is read as an entry. *)
Example hash_after_other_space_is_no_comment :
  commentRegex_MatchString (utf8 [11] ++ "# a b") = false /\
  commentRegex_MatchString (utf8 [194; 160] ++ "# a b") = false /\
  Fields (utf8 [194; 160] ++ "# a b") = ["#"; "a"; "b"].
Proof. repeat split. Qed.

Ltac run_m :=
  unfold Printf, Println, Close, Stat, Lstat, MkdirAll, RemoveAll,
    Symlink, Open, Executable, EvalSymlinks, emit, bind, ret;
  cbn [fst snd app].

Section Properties.

Context {FS : Type} {os : OS FS}.
Variable environ : list (string * string).

(** ** Lines that are not entries *)

Lemma not_comment_line (line : string) :
  ~ comment_line line -> commentRegex_MatchString line = false.
Proof.
  intros H. destruct (commentRegex_MatchString line) eqn:E; [|reflexivity].
  destruct H. apply commentRegex_matches_comment_line, E.
Qed.

(** An iteration that ends without a return hands over to the next line,
    with the counter one higher. *)
Lemma scanLoop_continue (dryRun : bool) (k : nat) (line : string) (rest : list string)
      (fs fs1 : FS) (t1 : list event) :
  loopBody environ dryRun (S k) line fs = (None, fs1, t1) ->
  scanLoop environ dryRun k (line :: rest) fs =
  let '(r, fs2, t2) := scanLoop environ dryRun (S k) rest fs1 in (r, fs2, (t1 ++ t2)%list).
Proof.
  intros H. cbn [scanLoop]. unfold bind. rewrite H. reflexivity.
Qed.

(** An iteration that returns an error ends the loop there. *)
Lemma scanLoop_abort (dryRun : bool) (k : nat) (line : string) (rest : list string)
      (fs fs1 : FS) (t1 : list event) (err : error) :
  loopBody environ dryRun (S k) line fs = (Some err, fs1, t1) ->
  scanLoop environ dryRun k (line :: rest) fs = (Some err, fs1, t1).
Proof.
  intros H. cbn [scanLoop]. unfold bind. rewrite H. unfold ret.
  rewrite app_nil_r. reflexivity.
Qed.




(** ** The two per-entry operations, case by case *)

Lemma ensureDirExists_cases (path : string) (dryRun : bool) (fs : FS) :
  ensureDirExists path dryRun fs =
  if os_IsNotExist (os_Stat fs path) then
    if dryRun then
      (None, fs, [Enter_ensureDirExists path true; SysStat path;
                  Stdout ("[DRY RUN] Would create directory: " ++ path ++ nl)])
    else
      (snd (os_MkdirAll fs path perm_0755), fst (os_MkdirAll fs path perm_0755),
       [Enter_ensureDirExists path false; SysStat path;
        Stdout ("Creating directory: " ++ path ++ nl); SysMkdirAll path perm_0755])
  else (None, fs, [Enter_ensureDirExists path dryRun; SysStat path]).
Proof.
  unfold ensureDirExists. run_m.
  destruct (os_IsNotExist (os_Stat fs path)); [|reflexivity].
  destruct dryRun; [reflexivity|].
  destruct (os_MkdirAll fs path perm_0755) as [fs' err]. reflexivity.
Qed.

Lemma createSymlink_dry_run (targetPath symlinkPath : string) (fs : FS) :
  createSymlink targetPath symlinkPath true fs =
  (None, fs,
   Enter_createSymlink targetPath symlinkPath true :: SysLstat symlinkPath ::
   (match os_Lstat fs symlinkPath with
    | None => [Stdout ("[DRY RUN] Would remove existing: " ++ symlinkPath ++ nl)]
    | Some _ => []
    end ++
    [Stdout ("[DRY RUN] Would create symlink: " ++ symlinkPath ++ " -> "
             ++ targetPath ++ nl)])%list).
Proof.
  unfold createSymlink, removeExisting. run_m.
  destruct (os_Lstat fs symlinkPath); reflexivity.
Qed.

Lemma createSymlink_apply (targetPath symlinkPath : string) (fs : FS) :
  createSymlink targetPath symlinkPath false fs =
  match os_Lstat fs symlinkPath with
  | None =>
    let fs1 := fst (os_RemoveAll fs symlinkPath) in
    match snd (os_RemoveAll fs symlinkPath) with
    | Some e =>
      (Some (fmt_Errorf ("error removing existing path: " ++ Error e)), fs1,
       [Enter_createSymlink targetPath symlinkPath false; SysLstat symlinkPath;
        Stdout ("Removing existing: " ++ symlinkPath ++ nl); SysRemoveAll symlinkPath])
    | None =>
      (snd (os_Symlink fs1 targetPath symlinkPath),
       fst (os_Symlink fs1 targetPath symlinkPath),
       [Enter_createSymlink targetPath symlinkPath false; SysLstat symlinkPath;
        Stdout ("Removing existing: " ++ symlinkPath ++ nl); SysRemoveAll symlinkPath;
        Stdout ("Creating symlink: " ++ symlinkPath ++ " -> " ++ targetPath ++ nl);
        SysSymlink targetPath symlinkPath])
    end
  | Some _ =>
    (snd (os_Symlink fs targetPath symlinkPath),
     fst (os_Symlink fs targetPath symlinkPath),
     [Enter_createSymlink targetPath symlinkPath false; SysLstat symlinkPath;
      Stdout ("Creating symlink: " ++ symlinkPath ++ " -> " ++ targetPath ++ nl);
      SysSymlink targetPath symlinkPath])
  end.
Proof.
  unfold createSymlink, removeExisting. run_m.
  destruct (os_Lstat fs symlinkPath) as [e|].
  - destruct (os_Symlink fs targetPath symlinkPath) as [fs2 err]. reflexivity.
  - destruct (os_RemoveAll fs symlinkPath) as [fs1 [e|]]; cbn [fst snd].
    + reflexivity.
    + destruct (os_Symlink fs1 targetPath symlinkPath) as [fs2 err]. reflexivity.
Qed.

Lemma ensureDirExists_entry_calls (path : string) (dryRun : bool) (fs : FS) :
  filter is_entry_call (trace_of (ensureDirExists path dryRun fs))
  = [Enter_ensureDirExists path dryRun].
Proof.
  rewrite ensureDirExists_cases.
  destruct (os_IsNotExist (os_Stat fs path)), dryRun; reflexivity.
Qed.

Lemma createSymlink_entry_calls (targetPath symlinkPath : string) (dryRun : bool) (fs : FS) :
  filter is_entry_call (trace_of (createSymlink targetPath symlinkPath dryRun fs))
  = [Enter_createSymlink targetPath symlinkPath dryRun].
Proof.
  destruct dryRun.
  - rewrite createSymlink_dry_run. destruct (os_Lstat fs symlinkPath); reflexivity.
  - rewrite createSymlink_apply.
    destruct (os_Lstat fs symlinkPath); [reflexivity|].
    destruct (snd (os_RemoveAll fs symlinkPath)); reflexivity.
Qed.

(** ** An iteration on an entry *)

(** On an entry the iteration prints (the warning for a dollar sign left in
    a path, the report of a dry run), then runs [ensureDirExists] on the
    directory of the link path and, when that returns no error,
    [createSymlink]; an error of either is returned from the loop. *)
Lemma loopBody_entry (dryRun : bool) (n : nat) (line symlinkPath actualPath : string) :
  entry_line environ line symlinkPath actualPath ->
  exists printed,
    forallb is_output printed = true /\
    forall fs : FS,
      loopBody environ dryRun n line fs =
      match ensureDirExists (Dir symlinkPath) dryRun fs with
      | (Some e, fs1, t1) => (Some (wrapDirError (Dir symlinkPath) e), fs1, printed ++ t1)
      | (None, fs1, t1) =>
        match createSymlink actualPath symlinkPath dryRun fs1 with
        | (Some e, fs2, t2) => (Some (wrapLinkError n e), fs2, printed ++ t1 ++ t2)
        | (None, fs2, t2) => (None, fs2, printed ++ t1 ++ t2)
        end
      end%list.
Proof.
  intros (Hne & Hnc & f0 & f1 & more & Hf & -> & -> & Hs & Ha).
  apply isEmpty_false in Hne, Hs, Ha.
  set (sp := expandPath environ f0) in *. set (ap := expandPath environ f1) in *.
  exists ((if containsByte "$"%char sp || containsByte "$"%char ap
           then [Stdout (warnUnexpanded n line)] else []) ++
          (if dryRun
           then [Stdout nl;
                 Stdout ("[DRY RUN] Line " ++ itoa n ++ ": " ++ f0 ++ " -> " ++ f1 ++ nl);
                 Stdout ("[DRY RUN] Expanded: " ++ sp ++ " -> " ++ ap
                         ++ " (dir: " ++ Dir sp ++ ")" ++ nl)]
           else []))%list.
  split.
  - destruct (containsByte "$"%char sp || containsByte "$"%char ap), dryRun; reflexivity.
  - intros fs. unfold loopBody. rewrite Hne, Hnc, Hf. cbn [orb length Nat.ltb Nat.leb nth].
    fold sp ap. rewrite Hs, Ha. cbn [orb]. unfold applyEntry.
    unfold bind at 1.
    destruct (containsByte "$"%char sp || containsByte "$"%char ap);
      destruct dryRun; run_m;
      (match goal with
       | |- context [@ensureDirExists _ _ ?d ?b fs] =>
         destruct (ensureDirExists d b fs) as [[[e|] fs1] t1]
       end);
      try (match goal with
           | |- context [@createSymlink _ _ ?a ?l ?b ?s] =>
             destruct (createSymlink a l b s) as [[[e'|] fs2] t2]
           end);
      rewrite ?app_nil_r; reflexivity.
Qed.

Lemma filter_output_free (p : event -> bool) (printed : list event) :
  (forall e, is_output e = true -> p e = false) ->
  forallb is_output printed = true -> filter p printed = [].
Proof.
  intros Hp. induction printed as [|e l IH]; simpl; [reflexivity|].
  intros H. apply andb_prop in H as [He Hl]. rewrite (Hp e He). auto.
Qed.

Lemma output_not_entry_call (e : event) : is_output e = true -> is_entry_call e = false.
Proof. destruct e; simpl; congruence. Qed.

(** C2, amended. On an entry the iteration enters [ensureDirExists] exactly
    once, on the directory of the expanded link path, and, unless that
    returns an error, then enters [createSymlink] exactly once, in that
    order; when the directory step returns an error the iteration returns
    it and [createSymlink] is not entered.  The directory step returns an
    error only in apply mode, when the directory is absent and
    [os.MkdirAll] fails; so in a dry run both calls always occur. *)
Theorem entry_ensures_then_links
        (dryRun : bool) (n : nat) (line symlinkPath actualPath : string) (fs : FS) :
  entry_line environ line symlinkPath actualPath ->
  let dirStep := ensureDirExists (Dir symlinkPath) dryRun fs in
  filter is_entry_call (trace_of (loopBody environ dryRun n line fs))
  = Enter_ensureDirExists (Dir symlinkPath) dryRun ::
    match result_of dirStep with
    | None => [Enter_createSymlink actualPath symlinkPath dryRun]
    | Some _ => []
    end /\
  (result_of dirStep <> None ->
   dryRun = false /\
   os_IsNotExist (os_Stat fs (Dir symlinkPath)) = true /\
   snd (os_MkdirAll fs (Dir symlinkPath) perm_0755) = result_of dirStep) /\
  (dryRun = true ->
   one_ensure_then_one_link environ dryRun n line symlinkPath actualPath fs).
Proof.
  intros Hentry dirStep.
  destruct (loopBody_entry dryRun n line symlinkPath actualPath Hentry)
    as (printed & Hprinted & Hbody).
  pose proof (filter_output_free is_entry_call printed output_not_entry_call Hprinted)
    as Hquiet.
  pose proof (ensureDirExists_entry_calls (Dir symlinkPath) dryRun fs) as Hdir.
  assert (Hcalls :
    filter is_entry_call (trace_of (loopBody environ dryRun n line fs))
    = Enter_ensureDirExists (Dir symlinkPath) dryRun ::
      match result_of dirStep with
      | None => [Enter_createSymlink actualPath symlinkPath dryRun]
      | Some _ => []
      end).
  { rewrite Hbody. subst dirStep.
    destruct (ensureDirExists (Dir symlinkPath) dryRun fs) as [[[e|] fs1] t1];
      unfold trace_of, result_of in *; cbn [fst snd] in *.
    - rewrite filter_app, Hquiet, Hdir. reflexivity.
    - pose proof (createSymlink_entry_calls actualPath symlinkPath dryRun fs1) as Hlink.
      destruct (createSymlink actualPath symlinkPath dryRun fs1) as [[[e|] fs2] t2];
        unfold trace_of in *; cbn [fst snd] in *;
        rewrite !filter_app, Hquiet, Hdir, Hlink; reflexivity. }
  assert (Hfail : result_of dirStep <> None ->
                  dryRun = false /\
                  os_IsNotExist (os_Stat fs (Dir symlinkPath)) = true /\
                  snd (os_MkdirAll fs (Dir symlinkPath) perm_0755) = result_of dirStep).
  { subst dirStep. rewrite ensureDirExists_cases.
    destruct (os_IsNotExist (os_Stat fs (Dir symlinkPath))), dryRun;
      unfold result_of; cbn [fst snd]; intros H; try congruence; auto. }
  split; [exact Hcalls|]. split; [exact Hfail|].
  intros ->. unfold one_ensure_then_one_link. rewrite Hcalls.
  destruct (result_of dirStep) eqn:E; [|reflexivity].
  destruct Hfail as [Hd _]; congruence.
Qed.

(** C6, amended. In apply mode [createSymlink] looks at the link path with
    [os.Lstat] (which does not follow symbolic links); when something is
    there it calls [os.RemoveAll] on the link path first; unless that
    removal fails (its error is then returned and no link is created) it
    calls [os.Symlink] for the target and the link path, on the file system
    as the removal left it, and returns what that call returns.  These are
    all its calls to the file system: the target is never looked at. *)
Theorem createSymlink_replaces
        (targetPath symlinkPath : string) (fs : FS) :
  let run := createSymlink targetPath symlinkPath false fs in
  let fs1 := fst (os_RemoveAll fs symlinkPath) in
  filter is_fs_call (trace_of run)
  = SysLstat symlinkPath ::
    match os_Lstat fs symlinkPath with
    | None =>
      SysRemoveAll symlinkPath ::
      match snd (os_RemoveAll fs symlinkPath) with
      | None => [SysSymlink targetPath symlinkPath]
      | Some _ => []
      end
    | Some _ => [SysSymlink targetPath symlinkPath]
    end /\
  (result_of run, fs_of run)
  = match os_Lstat fs symlinkPath with
    | None =>
      match snd (os_RemoveAll fs symlinkPath) with
      | None => (snd (os_Symlink fs1 targetPath symlinkPath),
                 fst (os_Symlink fs1 targetPath symlinkPath))
      | Some e => (Some (fmt_Errorf ("error removing existing path: " ++ Error e)), fs1)
      end
    | Some _ => (snd (os_Symlink fs targetPath symlinkPath),
                 fst (os_Symlink fs targetPath symlinkPath))
    end /\
  (snd (os_RemoveAll fs symlinkPath) = None \/ os_Lstat fs symlinkPath <> None ->
   removes_then_links targetPath symlinkPath fs).
Proof.
  intros run fs1. subst run fs1. unfold removes_then_links.
  rewrite createSymlink_apply.
  destruct (os_Lstat fs symlinkPath) as [e|].
  - repeat split.
  - destruct (snd (os_RemoveAll fs symlinkPath)) as [e|]; repeat split.
    intros [H | H]; congruence.
Qed.

(** C10. When [os.Stat] on the directory fails with an error that is not a
    not-exist error, [ensureDirExists] returns no error, in either mode: it
    calls nothing but that [os.Stat], prints nothing and leaves the file
    system as it is.  On an entry whose directory is in that case the
    iteration goes on with [createSymlink]: after its own prints and the
    directory step come the events of [createSymlink], run on the unchanged
    file system, and the file system it leaves. *)
Theorem stat_error_is_ignored
        (dryRun : bool) (n : nat) (line symlinkPath actualPath : string) (fs : FS)
        (err : error) :
  entry_line environ line symlinkPath actualPath ->
  os_Stat fs (Dir symlinkPath) = Some err -> IsNotExist err = false ->
  ensureDirExists (Dir symlinkPath) dryRun fs
  = (None, fs, [Enter_ensureDirExists (Dir symlinkPath) dryRun;
                SysStat (Dir symlinkPath)]) /\
  exists printed,
    forallb is_output printed = true /\
    trace_of (loopBody environ dryRun n line fs)
    = (printed ++
       [Enter_ensureDirExists (Dir symlinkPath) dryRun; SysStat (Dir symlinkPath)] ++
       trace_of (createSymlink actualPath symlinkPath dryRun fs))%list /\
    fs_of (loopBody environ dryRun n line fs)
    = fs_of (createSymlink actualPath symlinkPath dryRun fs).
Proof.
  intros Hentry Hstat Hkind.
  assert (Hdir : ensureDirExists (Dir symlinkPath) dryRun fs
                 = (None, fs, [Enter_ensureDirExists (Dir symlinkPath) dryRun;
                               SysStat (Dir symlinkPath)])).
  { rewrite ensureDirExists_cases, Hstat. cbn [os_IsNotExist]. rewrite Hkind.
    reflexivity. }
  split; [exact Hdir|].
  destruct (loopBody_entry dryRun n line symlinkPath actualPath Hentry)
    as (printed & Hprinted & Hbody).
  exists printed. split; [exact Hprinted|].
  rewrite Hbody, Hdir.
  destruct (createSymlink actualPath symlinkPath dryRun fs) as [[[e|] fs2] t2];
    split; reflexivity.
Qed.

(** ** Computations that leave the file system alone *)

(** In this section [quiet] is about computations over [FS]. *)
Local Abbreviation quiet := (@quiet FS _).

Lemma quiet_ret {A : Type} (a : A) : quiet (ret a).
Proof. intros fs. split; reflexivity. Qed.

Lemma quiet_bind {A B : Type} (m : M FS A) (k : A -> M FS B) :
  quiet m -> (forall a, quiet (k a)) -> quiet (bind m k).
Proof.
  intros Hm Hk fs. unfold bind. specialize (Hm fs).
  destruct (m fs) as [[a fs1] t1]. specialize (Hk a fs1).
  destruct (k a fs1) as [[b fs2] t2].
  unfold fs_of, trace_of in *. cbn [fst snd] in *.
  destruct Hm as [-> Ht1], Hk as [-> Ht2].
  split; [reflexivity|]. rewrite filter_app, Ht1, Ht2. reflexivity.
Qed.

Lemma quiet_emit (e : event) : is_mutation e = false -> quiet (emit e).
Proof.
  intros He fs. unfold emit, fs_of, trace_of. cbn [fst snd filter].
  rewrite He. split; reflexivity.
Qed.

Lemma quiet_Printf (text : string) : quiet (Printf text).
Proof. apply quiet_emit. reflexivity. Qed.

Lemma quiet_Println (text : string) : quiet (Println text).
Proof. apply quiet_emit. reflexivity. Qed.

Lemma quiet_Close (path : string) : quiet (Close path).
Proof. apply quiet_emit. reflexivity. Qed.

Lemma quiet_Stat (path : string) : quiet (Stat path).
Proof. intros fs. split; reflexivity. Qed.

Lemma quiet_Lstat (path : string) : quiet (Lstat path).
Proof. intros fs. split; reflexivity. Qed.

Lemma quiet_Open (path : string) : quiet (Open path).
Proof. intros fs. split; reflexivity. Qed.

Lemma quiet_Executable : quiet Executable.
Proof. intros fs. split; reflexivity. Qed.

Lemma quiet_EvalSymlinks (path : string) : quiet (EvalSymlinks path).
Proof. intros fs. split; reflexivity. Qed.

Create HintDb quiet.
#[local] Hint Resolve quiet_ret quiet_Printf quiet_Println quiet_Close quiet_Stat
  quiet_Lstat quiet_Open quiet_Executable quiet_EvalSymlinks : quiet.

(** Goes through a computation built from binds, tests and quiet steps. *)
Ltac quiet_steps :=
  repeat first
    [ solve [auto with quiet]
    | apply quiet_emit; reflexivity
    | apply quiet_bind; [|intros ?]
    | match goal with
      | |- quiet (if ?b then _ else _) => destruct b
      | |- quiet (match ?x with _ => _ end) => destruct x
      end ].

Lemma quiet_ensureDirExists (path : string) : quiet (ensureDirExists path true).
Proof. unfold ensureDirExists. quiet_steps. Qed.

Lemma quiet_createSymlink (targetPath symlinkPath : string) :
  quiet (createSymlink targetPath symlinkPath true).
Proof. unfold createSymlink, removeExisting. quiet_steps. Qed.

#[local] Hint Resolve quiet_ensureDirExists quiet_createSymlink : quiet.

Lemma quiet_loopBody (n : nat) (line : string) : quiet (loopBody environ true n line).
Proof. unfold loopBody, applyEntry. quiet_steps. Qed.

#[local] Hint Resolve quiet_loopBody : quiet.

Lemma quiet_scanLoop (k : nat) (lines : list string) :
  quiet (scanLoop environ true k lines).
Proof.
  revert k. induction lines as [|line rest IH]; intros k; cbn [scanLoop].
  - auto with quiet.
  - quiet_steps.
Qed.

#[local] Hint Resolve quiet_scanLoop : quiet.

Lemma quiet_setupSymlinks (configFilePath : string) :
  quiet (setupSymlinks environ configFilePath true).
Proof. unfold setupSymlinks. quiet_steps. Qed.

Lemma quiet_getExecutablePath : quiet getExecutablePath.
Proof. unfold getExecutablePath. quiet_steps. Qed.

Lemma quiet_showHelp : quiet showHelp.
Proof. unfold showHelp, flag_PrintDefaults. quiet_steps. Qed.

Lemma quiet_printVars (vars : list string) : quiet (printVars environ vars).
Proof.
  induction vars as [|v rest IH]; cbn [printVars].
  - auto with quiet.
  - quiet_steps.
Qed.

#[local] Hint Resolve quiet_printVars : quiet.

Lemma quiet_printEnvironmentInfo (dryRun : bool) :
  quiet (printEnvironmentInfo environ dryRun).
Proof. unfold printEnvironmentInfo. quiet_steps. Qed.

#[local] Hint Resolve quiet_setupSymlinks quiet_getExecutablePath quiet_showHelp
  quiet_printEnvironmentInfo : quiet.

(** C1. A run with [--dry-run] changes nothing, whatever the command line,
    the environment and the system (configuration file included): the file
    system after the run is the one before it, and the run calls none of
    [os.MkdirAll], [os.RemoveAll] and [os.Symlink]. *)
Theorem dry_run_never_mutates (help : bool) (args : list string) (fs : FS) :
  let run := main environ (mkFlags true help args) fs in
  fs_of run = fs /\ filter is_mutation (trace_of run) = [].
Proof.
  assert (H : quiet (main environ (mkFlags true help args))).
  { unfold main. cbn [flag_help flag_dryRun flag_Args]. quiet_steps. }
  exact (H fs).
Qed.

(** ** The whole run, case by case *)

Lemma run_eta {A : Type} (r : A * FS * list event) :
  r = (result_of r, fs_of r, trace_of r).
Proof. destruct r as [[a fs] t]. reflexivity. Qed.

Lemma scanLoop_app (dryRun : bool) (pre rest : list string) :
  forall (k : nat) (fs fs1 : FS) (t1 : list event),
    scanLoop environ dryRun k pre fs = (None, fs1, t1) ->
    scanLoop environ dryRun k (pre ++ rest) fs =
    let '(r, fs2, t2) := scanLoop environ dryRun (k + length pre) rest fs1 in
    (r, fs2, (t1 ++ t2)%list).
Proof.
  induction pre as [|line pre IH]; intros k fs fs1 t1 H.
  - cbn in H. injection H as <- <-. cbn [app length]. rewrite Nat.add_0_r.
    destruct (scanLoop environ dryRun k rest fs) as [[r fs2] t2]. reflexivity.
  - cbn [app length]. cbn [scanLoop] in *. unfold bind in *.
    destruct (loopBody environ dryRun (S k) line fs) as [[[e|] fsa] ta].
    + unfold ret in H. discriminate H.
    + destruct (scanLoop environ dryRun (S k) pre fsa) as [[r fsb] tb] eqn:Hpre.
      injection H as -> -> <-.
      rewrite (IH (S k) fsa fs1 tb Hpre).
      replace (S k + length pre) with (k + S (length pre)) by lia.
      destruct (scanLoop environ dryRun (k + S (length pre)) rest fs1) as [[r fs2] t2].
      rewrite app_assoc. reflexivity.
Qed.

Lemma setupSymlinks_cases (configFilePath : string) (dryRun : bool) (fs : FS) :
  setupSymlinks environ configFilePath dryRun fs =
  if os_IsNotExist (os_Stat fs configFilePath) then
    (Some (notFoundError configFilePath), fs, [SysStat configFilePath])
  else
    match os_Open fs configFilePath with
    | Failed err =>
      (Some (fmt_Errorf ("error opening config file: " ++ Error err)), fs,
       openingEvents configFilePath dryRun)
    | Ok file =>
      let '(r, fs1, t) := scanLoop environ dryRun 0 (file_lines file) fs in
      match r, file_scan_err file with
      | Some err, _ =>
        (Some err, fs1,
         openingEvents configFilePath dryRun ++ t ++ [SysClose configFilePath])
      | None, Some err =>
        (Some (fmt_Errorf ("error reading config file: " ++ Error err)), fs1,
         openingEvents configFilePath dryRun ++ t ++ [SysClose configFilePath])
      | None, None =>
        (None, fs1,
         openingEvents configFilePath dryRun ++ t
         ++ [completeEvent dryRun; SysClose configFilePath])
      end
    end%list.
Proof.
  unfold setupSymlinks, openingEvents, completeEvent. run_m.
  destruct (os_IsNotExist (os_Stat fs configFilePath)); [reflexivity|].
  destruct (os_Open fs configFilePath) as [file|err]; [|reflexivity].
  destruct (scanLoop environ dryRun 0 (file_lines file) fs) as [[[e|] fs1] t].
  - rewrite app_nil_r. reflexivity.
  - destruct (file_scan_err file); [rewrite app_nil_r|rewrite <- app_assoc];
      destruct dryRun; reflexivity.
Qed.

Lemma main_cases (dryRun : bool) (args : list string) (fs : FS) :
  main environ (mkFlags dryRun false args) fs =
  match result_of (getExecutablePath fs) with
  | Failed err =>
    (1, fs,
     trace_of (getExecutablePath fs)
     ++ [Stdout ("Error getting executable path: " ++ Error err ++ nl)])
  | Ok execDir =>
    let '(r, fs1, t) :=
      setupSymlinks environ (configFilePathFor args execDir) dryRun fs in
    match r with
    | Some e =>
      (1, fs1,
       trace_of (getExecutablePath fs)
       ++ trace_of (printEnvironmentInfo environ dryRun fs)
       ++ t ++ [Stdout ("Error: " ++ Error e ++ nl)])
    | None =>
      (0, fs1,
       trace_of (getExecutablePath fs)
       ++ trace_of (printEnvironmentInfo environ dryRun fs) ++ t)
    end
  end%list.
Proof.
  unfold main. cbn [flag_help flag_dryRun flag_Args]. unfold bind at 1.
  destruct (quiet_getExecutablePath fs) as [Hfs _].
  destruct (getExecutablePath fs) as [[r0 fs0] t0].
  unfold fs_of, result_of, trace_of in *. cbn [fst snd] in *. subst fs0.
  destruct r0 as [execDir|err].
  - unfold bind.
    destruct (quiet_printEnvironmentInfo dryRun fs) as [Hfs _].
    destruct (printEnvironmentInfo environ dryRun fs) as [[[] fs0] tp].
    unfold fs_of in Hfs. cbn [fst snd] in *. subst fs0.
    destruct (setupSymlinks environ (configFilePathFor args execDir) dryRun fs)
      as [[[e|] fs1] t]; unfold Printf, emit, ret; rewrite ?app_nil_r; reflexivity.
  - unfold Printf, emit, ret, bind. reflexivity.
Qed.

(** ** Dry runs never return an error from the loop *)

Lemma ensureDirExists_dry_run_ok (path : string) (fs : FS) :
  result_of (ensureDirExists path true fs) = None.
Proof.
  rewrite ensureDirExists_cases. destruct (os_IsNotExist (os_Stat fs path)); reflexivity.
Qed.

Lemma createSymlink_dry_run_ok (targetPath symlinkPath : string) (fs : FS) :
  result_of (createSymlink targetPath symlinkPath true fs) = None.
Proof. rewrite createSymlink_dry_run. reflexivity. Qed.

Lemma loopBody_dry_run (n : nat) (line : string) (fs : FS) :
  loopBody environ true n line fs
  = (None, fs, trace_of (loopBody environ true n line fs)).
Proof.
  rewrite (run_eta (loopBody environ true n line fs)) at 1.
  destruct (quiet_loopBody n line fs) as [-> _]. f_equal. f_equal.
  unfold loopBody.
  destruct (isEmpty line || commentRegex_MatchString line); [reflexivity|].
  destruct (Nat.ltb (length (Fields line)) 2); [reflexivity|].
  destruct (isEmpty (expandPath environ (nth 0 (Fields line) ""))
            || isEmpty (expandPath environ (nth 1 (Fields line) ""))); [reflexivity|].
  unfold applyEntry.
  set (sp := expandPath environ (nth 0 (Fields line) "")).
  set (ap := expandPath environ (nth 1 (Fields line) "")).
  pose proof (ensureDirExists_dry_run_ok (Dir sp)) as Hdir.
  pose proof (createSymlink_dry_run_ok ap sp) as Hlink.
  destruct (containsByte "$"%char sp || containsByte "$"%char ap); run_m;
    (match goal with
     | |- context [@ensureDirExists _ _ ?d true fs] =>
       specialize (Hdir fs); destruct (ensureDirExists d true fs) as [[r1 fs1] t1]
     end);
    unfold result_of in Hdir; cbn [fst snd] in Hdir; subst r1;
    specialize (Hlink fs1);
    destruct (createSymlink ap sp true fs1) as [[r2 fs2] t2];
    unfold result_of in Hlink; cbn [fst snd] in Hlink; subst r2; reflexivity.
Qed.

Lemma scanLoop_dry_run (lines : list string) (fs : FS) :
  forall k, scanLoop environ true k lines fs = (None, fs, lineEvents environ k lines fs).
Proof.
  induction lines as [|line rest IH]; intros k.
  - reflexivity.
  - rewrite (scanLoop_continue _ _ _ _ _ _ _ (loopBody_dry_run (S k) line fs)).
    rewrite IH. reflexivity.
Qed.

(** C8. In a dry run [ensureDirExists] and [createSymlink] never return an
    error.  A dry run (without [--help]) therefore ends with a non-zero
    status exactly when the path of the executable cannot be resolved, the
    configuration file does not exist, it cannot be opened, or reading it
    fails.  When none of these happens, the run goes through every line of
    the file, one iteration after the other, prints the closing line of a
    dry run and exits with status 0, leaving the file system as it was. *)
Theorem dry_run_fatal_conditions (args : list string) (fs : FS) :
  (forall path fs', result_of (ensureDirExists path true fs') = None) /\
  (forall targetPath symlinkPath fs',
      result_of (createSymlink targetPath symlinkPath true fs') = None) /\
  (result_of (main environ (mkFlags true false args) fs) <> 0
   <-> dry_run_fatal args fs) /\
  (forall execDir file,
      result_of (getExecutablePath fs) = Ok execDir ->
      os_IsNotExist (os_Stat fs (configFilePathFor args execDir)) = false ->
      os_Open fs (configFilePathFor args execDir) = Ok file ->
      file_scan_err file = None ->
      main environ (mkFlags true false args) fs
      = (0, fs,
         trace_of (getExecutablePath fs)
         ++ trace_of (printEnvironmentInfo environ true fs)
         ++ openingEvents (configFilePathFor args execDir) true
         ++ lineEvents environ 0 (file_lines file) fs
         ++ [completeEvent true; SysClose (configFilePathFor args execDir)])%list).
Proof.
  split; [exact ensureDirExists_dry_run_ok|].
  split; [exact createSymlink_dry_run_ok|].
  split.
  - rewrite main_cases. unfold dry_run_fatal.
    destruct (result_of (getExecutablePath fs)) as [execDir|err].
    + rewrite setupSymlinks_cases.
      destruct (os_IsNotExist (os_Stat fs (configFilePathFor args execDir))).
      * unfold result_of. cbn [fst snd]. split; [auto | discriminate].
      * destruct (os_Open fs (configFilePathFor args execDir)) as [file|err].
        -- rewrite scanLoop_dry_run.
           destruct (file_scan_err file) as [e|]; unfold result_of; cbn [fst snd].
           ++ split; [intros _; right; discriminate | discriminate].
           ++ split; [congruence | intros [H | H]; congruence].
        -- unfold result_of. cbn [fst snd]. split; [auto | discriminate].
    + unfold result_of. cbn [fst snd]. split; [auto | discriminate].
  - intros execDir file Hexe Hstat Hopen Hscan.
    rewrite main_cases, Hexe, setupSymlinks_cases, Hstat, Hopen, scanLoop_dry_run, Hscan.
    reflexivity.
Qed.

(** ** A missing configuration file *)

Lemma printVars_only_prints (vars : list string) (fs : FS) :
  fs_of (printVars environ vars fs) = fs /\
  filter is_output (trace_of (printVars environ vars fs))
  = trace_of (printVars environ vars fs).
Proof.
  induction vars as [|v rest IH]; [split; reflexivity|].
  cbn [printVars].
  destruct (negb (isEmpty (os_Getenv environ v))); run_m;
    destruct (printVars environ rest fs) as [[u fs1] t1];
    unfold fs_of, trace_of in *; cbn [fst snd filter is_output] in *;
    destruct IH as [-> ->]; split; reflexivity.
Qed.

Lemma printEnvironmentInfo_only_prints (dryRun : bool) (fs : FS) :
  filter is_output (trace_of (printEnvironmentInfo environ dryRun fs))
  = trace_of (printEnvironmentInfo environ dryRun fs).
Proof.
  unfold printEnvironmentInfo. destruct dryRun; [|reflexivity]. run_m.
  destruct (printVars_only_prints commonVars fs) as [_ Hv].
  destruct (printVars environ commonVars fs) as [[u fs1] t1].
  unfold trace_of in *. cbn [fst snd filter is_output] in *.
  rewrite filter_app, Hv. reflexivity.
Qed.

(** C3, amended. When the configuration file of a run (without [--help],
    the path of the executable resolved) does not exist, the run exits with
    status 1, leaves the file system as it is, and the report of the missing
    file is the last thing it writes.  In apply mode that report is all the
    program writes, so it comes first; in a dry run the banner and the
    environment listing of [printEnvironmentInfo] are written before it, and
    nothing else. *)
Theorem missing_config_reported
        (dryRun : bool) (args : list string) (execDir : string) (fs : FS) :
  result_of (getExecutablePath fs) = Ok execDir ->
  os_IsNotExist (os_Stat fs (configFilePathFor args execDir)) = true ->
  let run := main environ (mkFlags dryRun false args) fs in
  result_of run = 1 /\ fs_of run = fs /\
  filter is_output (trace_of run)
  = (trace_of (printEnvironmentInfo environ dryRun fs)
     ++ [notFoundMessage (configFilePathFor args execDir)])%list /\
  (dryRun = false ->
   not_found_reported_first environ false args (configFilePathFor args execDir) fs).
Proof.
  intros Hexe Hstat run.
  assert (Hrun : run = (1, fs,
                        trace_of (getExecutablePath fs)
                        ++ trace_of (printEnvironmentInfo environ dryRun fs)
                        ++ [SysStat (configFilePathFor args execDir)]
                        ++ [notFoundMessage (configFilePathFor args execDir)])%list).
  { subst run. rewrite main_cases, Hexe, setupSymlinks_cases, Hstat. reflexivity. }
  assert (Hexe_out : filter is_output (trace_of (getExecutablePath fs)) = []).
  { unfold getExecutablePath. run_m.
    destruct (os_Executable fs) as [exe|e]; [|reflexivity].
    destruct (filepath_EvalSymlinks fs exe); reflexivity. }
  pose proof printEnvironmentInfo_only_prints as Henv_out.
  assert (Hout : filter is_output (trace_of run)
                 = (trace_of (printEnvironmentInfo environ dryRun fs)
                    ++ [notFoundMessage (configFilePathFor args execDir)])%list).
  { rewrite Hrun. unfold trace_of at 1. cbn [snd].
    rewrite !filter_app, Hexe_out, Henv_out. reflexivity. }
  rewrite Hrun at 1 2. split; [reflexivity|]. split; [reflexivity|].
  split; [exact Hout|].
  intros ->. unfold not_found_reported_first. fold run. rewrite Hrun at 1.
  split; [discriminate|]. exists []. rewrite Hout. reflexivity.
Qed.

(** ** A failing entry in apply mode *)

Lemma failing_entry_returns (n : nat) (line symlinkPath actualPath : string) (fs : FS) :
  entry_line environ line symlinkPath actualPath ->
  entry_step_fails symlinkPath actualPath fs ->
  exists err, result_of (loopBody environ false n line fs) = Some err.
Proof.
  intros Hentry Hfail.
  destruct (loopBody_entry false n line symlinkPath actualPath Hentry)
    as (printed & _ & Hbody).
  rewrite Hbody. clear Hbody. unfold entry_step_fails in Hfail.
  destruct Hfail as [[Habsent Hmk] | [Hdir Hlink]].
  - rewrite ensureDirExists_cases, Habsent.
    destruct (snd (os_MkdirAll fs (Dir symlinkPath) perm_0755)) as [e|]; [|congruence].
    eexists. reflexivity.
  - destruct (ensureDirExists (Dir symlinkPath) false fs) as [[r1 fs1] t1].
    unfold result_of, fs_of in Hdir, Hlink. cbn [fst snd] in Hdir, Hlink. subst r1.
    rewrite createSymlink_apply.
    destruct Hlink as [[Hl Hrm] | [(Hl & Hrm & Hsym) | [Hl Hsym]]].
    + rewrite Hl. cbn zeta.
      destruct (snd (os_RemoveAll fs1 symlinkPath)) as [e|]; [|congruence].
      eexists. reflexivity.
    + rewrite Hl, Hrm. cbn zeta.
      destruct (snd (os_Symlink (fst (os_RemoveAll fs1 symlinkPath))
                                actualPath symlinkPath)) as [e|]; [|congruence].
      eexists. reflexivity.
    + destruct (os_Lstat fs1 symlinkPath) as [e0|]; [|congruence].
      destruct (snd (os_Symlink fs1 actualPath symlinkPath)) as [e|]; [|congruence].
      eexists. reflexivity.
Qed.

(** C7. In apply mode, let the run reach an entry (the lines [pre] before
    it having been processed without a return) on which creating the
    directory, removing what is at the link path, or creating the link
    fails.  Then the iteration on that entry returns an error, and the run
    ends there: the exit status is 1, the last thing written is the line
    [Error: ...] with that error, and the events of the run stop with those
    of the failing iteration (and the closing of the file), whatever lines
    [post] follow: none of them is processed. *)
Theorem entry_failure_aborts_run
        (args : list string) (execDir : string) (file : File)
        (pre post : list string) (line symlinkPath actualPath : string)
        (fs fs1 : FS) (t1 : list event) :
  result_of (getExecutablePath fs) = Ok execDir ->
  os_IsNotExist (os_Stat fs (configFilePathFor args execDir)) = false ->
  os_Open fs (configFilePathFor args execDir) = Ok file ->
  file_lines file = (pre ++ line :: post)%list ->
  scanLoop environ false 0 pre fs = (None, fs1, t1) ->
  entry_line environ line symlinkPath actualPath ->
  entry_step_fails symlinkPath actualPath fs1 ->
  let failing := loopBody environ false (S (length pre)) line fs1 in
  exists err,
    result_of failing = Some err /\
    main environ (mkFlags false false args) fs
    = (1, fs_of failing,
       trace_of (getExecutablePath fs)
       ++ openingEvents (configFilePathFor args execDir) false
       ++ t1 ++ trace_of failing
       ++ [SysClose (configFilePathFor args execDir);
           Stdout ("Error: " ++ Error err ++ nl)])%list.
Proof.
  intros Hexe Hstat Hopen Hlines Hpre Hentry Hfail failing. subst failing.
  destruct (failing_entry_returns (S (length pre)) line symlinkPath actualPath fs1
                                  Hentry Hfail) as [err Herr].
  exists err. split; [exact Herr|].
  assert (Hbody : loopBody environ false (S (length pre)) line fs1
                  = (Some err, fs_of (loopBody environ false (S (length pre)) line fs1),
                     trace_of (loopBody environ false (S (length pre)) line fs1))).
  { rewrite (run_eta (loopBody environ false (S (length pre)) line fs1)) at 1.
    rewrite Herr. reflexivity. }
  rewrite main_cases, Hexe, setupSymlinks_cases, Hstat, Hopen, Hlines.
  rewrite (scanLoop_app false pre (line :: post) 0 fs fs1 t1 Hpre).
  cbn [Nat.add].
  rewrite (scanLoop_abort false (length pre) line post fs1 _ _ err Hbody).
  cbn [printEnvironmentInfo trace_of ret snd app].
  rewrite <- !app_assoc. reflexivity.
Qed.

(* ===================================================================== *)
(** ** Further properties of [main.go] *)
(* ===================================================================== *)

Lemma output_not_fs_call (e : event) : is_output e = true -> is_fs_call e = false.
Proof. destruct e; simpl; congruence. Qed.

Lemma output_not_mutation (e : event) : is_output e = true -> is_mutation e = false.
Proof. destruct e; simpl; congruence. Qed.

Lemma getExecutablePath_cases (fs : FS) :
  getExecutablePath fs =
  match os_Executable fs with
  | Failed err => (Failed err, fs, [SysExecutable])
  | Ok exe =>
    match filepath_EvalSymlinks fs exe with
    | Failed err => (Failed err, fs, [SysExecutable; SysEvalSymlinks exe])
    | Ok realPath => (Ok (Dir realPath), fs, [SysExecutable; SysEvalSymlinks exe])
    end
  end.
Proof.
  unfold getExecutablePath. run_m.
  destruct (os_Executable fs) as [exe|err]; [|reflexivity].
  destruct (filepath_EvalSymlinks fs exe); reflexivity.
Qed.


(** X2. When the path of the executable cannot be resolved ([os.Executable]
    or [filepath.EvalSymlinks] fails) the run ends with status 1 after
    printing [Error getting executable path: ...], also when a configuration
    file is given on the command line: that file is never looked at, and
    resolving the executable is all the run asks of the system. *)
Theorem executable_failure_is_fatal
        (dryRun : bool) (args : list string) (fs : FS) (err : error) :
  result_of (getExecutablePath fs) = Failed err ->
  let run := main environ (mkFlags dryRun false args) fs in
  result_of run = 1 /\ fs_of run = fs /\
  filter is_output (trace_of run)
  = [Stdout ("Error getting executable path: " ++ Error err ++ nl)] /\
  filter is_fs_call (trace_of run)
  = SysExecutable :: match os_Executable fs with
                     | Ok exe => [SysEvalSymlinks exe]
                     | Failed _ => []
                     end.
Proof.
  intros Hexe run. subst run. rewrite main_cases, Hexe.
  rewrite getExecutablePath_cases in *.
  destruct (os_Executable fs) as [exe|e].
  - destruct (filepath_EvalSymlinks fs exe) as [real|e]; [discriminate Hexe|].
    repeat split.
  - repeat split.
Qed.

(** X3. When the configuration file is there for [os.Stat] but cannot be
    opened, the run prints the line that announces the set-up, then
    [Error: error opening config file: ...], and ends with status 1: no line
    is read, nothing is changed, and no file is closed. *)
Theorem open_failure_is_fatal
        (dryRun : bool) (args : list string) (execDir : string) (fs : FS) (err : error) :
  result_of (getExecutablePath fs) = Ok execDir ->
  os_IsNotExist (os_Stat fs (configFilePathFor args execDir)) = false ->
  os_Open fs (configFilePathFor args execDir) = Failed err ->
  main environ (mkFlags dryRun false args) fs
  = (1, fs,
     trace_of (getExecutablePath fs)
     ++ trace_of (printEnvironmentInfo environ dryRun fs)
     ++ openingEvents (configFilePathFor args execDir) dryRun
     ++ [Stdout ("Error: error opening config file: " ++ Error err ++ nl)])%list.
Proof.
  intros Hexe Hstat Hopen.
  rewrite main_cases, Hexe, setupSymlinks_cases, Hstat, Hopen. reflexivity.
Qed.

(** X4. When reading the configuration file breaks off, the lines delivered
    before that have been processed like any others, and what they changed
    stays changed; the run then closes the file, prints
    [Error: error reading config file: ...] instead of the closing line, and
    ends with status 1. *)
Theorem scan_error_after_processing
        (dryRun : bool) (args : list string) (execDir : string) (file : File)
        (fs fs1 : FS) (t : list event) (err : error) :
  result_of (getExecutablePath fs) = Ok execDir ->
  os_IsNotExist (os_Stat fs (configFilePathFor args execDir)) = false ->
  os_Open fs (configFilePathFor args execDir) = Ok file ->
  scanLoop environ dryRun 0 (file_lines file) fs = (None, fs1, t) ->
  file_scan_err file = Some err ->
  main environ (mkFlags dryRun false args) fs
  = (1, fs1,
     trace_of (getExecutablePath fs)
     ++ trace_of (printEnvironmentInfo environ dryRun fs)
     ++ openingEvents (configFilePathFor args execDir) dryRun
     ++ t
     ++ [SysClose (configFilePathFor args execDir);
         Stdout ("Error: error reading config file: " ++ Error err ++ nl)])%list.
Proof.
  intros Hexe Hstat Hopen Hloop Hscan.
  rewrite main_cases, Hexe, setupSymlinks_cases, Hstat, Hopen, Hloop, Hscan.
  rewrite <- !app_assoc. reflexivity.
Qed.

Lemma scanLoop_app_abort (dryRun : bool) (pre rest : list string) :
  forall (k : nat) (fs fs1 : FS) (t1 : list event) (err : error),
    scanLoop environ dryRun k pre fs = (Some err, fs1, t1) ->
    scanLoop environ dryRun k (pre ++ rest) fs = (Some err, fs1, t1).
Proof.
  induction pre as [|line pre IH]; intros k fs fs1 t1 err H.
  - discriminate H.
  - cbn [app]. cbn [scanLoop] in *. unfold bind in *.
    destruct (loopBody environ dryRun (S k) line fs) as [[[e|] fsa] ta].
    + exact H.
    + destruct (scanLoop environ dryRun (S k) pre fsa) as [[r fsb] tb] eqn:Hpre.
      injection H as -> -> <-.
      rewrite (IH (S k) fsa fs1 tb err Hpre). reflexivity.
Qed.

(** X5. The scan loop over a file is the loop over its first lines followed
    by the loop over the others, on the file system the first lines left
    and with the line counter advanced by their number; and when an
    iteration on the first lines returns an error, the others are not
    processed at all. *)
Theorem scanLoop_concat (dryRun : bool) (k : nat) (pre rest : list string) (fs : FS) :
  scanLoop environ dryRun k (pre ++ rest) fs =
  match scanLoop environ dryRun k pre fs with
  | (Some err, fs1, t1) => (Some err, fs1, t1)
  | (None, fs1, t1) =>
    let '(r, fs2, t2) := scanLoop environ dryRun (k + length pre) rest fs1 in
    (r, fs2, (t1 ++ t2)%list)
  end.
Proof.
  destruct (scanLoop environ dryRun k pre fs) as [[[err|] fs1] t1] eqn:Hpre.
  - apply scanLoop_app_abort, Hpre.
  - apply scanLoop_app, Hpre.
Qed.

Lemma filter_output_snoc (t : list event) (text : string) :
  filter is_output (t ++ [Stdout text]) = (filter is_output t ++ [Stdout text])%list.
Proof. rewrite filter_app. reflexivity. Qed.

(** X12. Every run without [--help] ends with status 0 or 1, and the last
    thing it writes tells which: with status 0 it is the closing line of the
    mode ([Symlink setup complete!], with the dry-run mark in a dry run),
    with status 1 it is a line that starts with [Error]. *)
Theorem run_ends_with_outcome (dryRun : bool) (args : list string) (fs : FS) :
  let run := main environ (mkFlags dryRun false args) fs in
  exists before text,
    filter is_output (trace_of run) = (before ++ [Stdout text])%list /\
    ((result_of run = 0 /\ Stdout text = completeEvent dryRun) \/
     (result_of run = 1 /\ String.prefix "Error" text = true)).
Proof.
  intros run. subst run. rewrite main_cases.
  destruct (result_of (getExecutablePath fs)) as [execDir|err].
  - rewrite setupSymlinks_cases.
    set (cfg := configFilePathFor args execDir).
    set (t0 := (trace_of (getExecutablePath fs))).
    set (tp := trace_of (printEnvironmentInfo environ dryRun fs)).
    destruct (os_IsNotExist (os_Stat fs cfg)).
    + eexists _, _. unfold trace_of at 1, result_of. cbn [fst snd].
      rewrite !app_assoc, filter_output_snoc. split; [reflexivity|].
      right. split; reflexivity.
    + destruct (os_Open fs cfg) as [file|err].
      * destruct (scanLoop environ dryRun 0 (file_lines file) fs) as [[[e|] fs1] t].
        -- eexists _, _. unfold trace_of at 1, result_of. cbn [fst snd].
           rewrite !app_assoc, filter_output_snoc. split; [reflexivity|].
           right. split; reflexivity.
        -- destruct (file_scan_err file) as [e|].
           ++ eexists _, _. unfold trace_of at 1, result_of. cbn [fst snd].
              rewrite !app_assoc, filter_output_snoc. split; [reflexivity|].
              right. split; reflexivity.
           ++ exists (filter is_output (t0 ++ tp ++ openingEvents cfg dryRun ++ t)),
                     ((if dryRun
                       then "[DRY RUN] Symlink setup complete! (No changes made)"
                       else "Symlink setup complete!") ++ nl).
              unfold trace_of at 1, result_of. cbn [fst snd]. split.
              ** replace (t0 ++ tp ++ openingEvents cfg dryRun ++ t
                          ++ [completeEvent dryRun; SysClose cfg])%list
                   with ((t0 ++ tp ++ openingEvents cfg dryRun ++ t)
                         ++ [completeEvent dryRun] ++ [SysClose cfg])%list
                   by (rewrite <- !app_assoc; reflexivity).
                 rewrite !filter_app. cbn [filter is_output completeEvent].
                 rewrite app_nil_r. reflexivity.
              ** left. split; reflexivity.
      * eexists _, _. unfold trace_of at 1, result_of. cbn [fst snd].
        rewrite !app_assoc, filter_output_snoc. split; [reflexivity|].
        right. split; reflexivity.
  - eexists _, _. unfold trace_of at 1, result_of. cbn [fst snd].
    rewrite filter_output_snoc. split; [reflexivity|].
    right. split; reflexivity.
Qed.

(** *** What an iteration asks of the file system *)

Lemma ensureDirExists_fs_calls (path : string) (dryRun : bool) (fs : FS) :
  filter is_fs_call (trace_of (ensureDirExists path dryRun fs))
  = SysStat path ::
    (if negb dryRun && os_IsNotExist (os_Stat fs path)
     then [SysMkdirAll path perm_0755] else []).
Proof.
  rewrite ensureDirExists_cases.
  destruct (os_IsNotExist (os_Stat fs path)), dryRun; reflexivity.
Qed.

(** X6. Tokens after the second one do not count: two lines that are
    entries with the same expanded link path and target make the same calls
    to the file system, leave it in the same state and agree on whether the
    iteration returns an error. *)
Theorem same_paths_same_effect
        (dryRun : bool) (n : nat) (line1 line2 symlinkPath actualPath : string) (fs : FS) :
  entry_line environ line1 symlinkPath actualPath ->
  entry_line environ line2 symlinkPath actualPath ->
  let run1 := loopBody environ dryRun n line1 fs in
  let run2 := loopBody environ dryRun n line2 fs in
  fs_of run1 = fs_of run2 /\
  filter is_fs_call (trace_of run1) = filter is_fs_call (trace_of run2) /\
  result_of run1 = result_of run2.
Proof.
  intros H1 H2 run1 run2. subst run1 run2.
  destruct (loopBody_entry dryRun n line1 symlinkPath actualPath H1)
    as (printed1 & Hp1 & Hbody1).
  destruct (loopBody_entry dryRun n line2 symlinkPath actualPath H2)
    as (printed2 & Hp2 & Hbody2).
  pose proof (filter_output_free is_fs_call printed1 output_not_fs_call Hp1) as Hq1.
  pose proof (filter_output_free is_fs_call printed2 output_not_fs_call Hp2) as Hq2.
  rewrite Hbody1, Hbody2.
  destruct (ensureDirExists (Dir symlinkPath) dryRun fs) as [[[e|] fs1] t1].
  - unfold fs_of, trace_of, result_of. cbn [fst snd].
    rewrite !filter_app, Hq1, Hq2. repeat split.
  - destruct (createSymlink actualPath symlinkPath dryRun fs1) as [[[e|] fs2] t2];
      unfold fs_of, trace_of, result_of; cbn [fst snd];
      rewrite !filter_app, Hq1, Hq2; repeat split.
Qed.

(** *** Fields without variables *)

Lemma fieldsFrom_nonempty (s : string) :
  forall (skip : nat) (cur : string), Forall (fun f => f <> "") (fieldsFrom skip cur s).
Proof.
  assert (Hflush : forall cur rest, Forall (fun f => f <> "") rest ->
                                    Forall (fun f => f <> "") (flushField cur rest)).
  { intros cur rest Hrest. unfold flushField. destruct cur; simpl; [exact Hrest|].
    constructor; [discriminate | exact Hrest]. }
  induction s as [|c s IH]; intros skip cur.
  - cbn [fieldsFrom]. apply Hflush. constructor.
  - cbn [fieldsFrom]. destruct skip as [|k]; [|apply IH].
    destruct (spaceWidth (String c s)); [apply IH|]. apply Hflush, IH.
Qed.

Lemma expandFrom_no_dollar (mapping : string -> string) (s : string) :
  containsByte "$"%char s = false -> expandFrom mapping 0 s = s.
Proof.
  induction s as [|c s IH]; [reflexivity|].
  cbn [containsByte expandFrom]. intros H. apply orb_false_elim in H as [Hc Hs].
  assert (Hd : byte_is 36 c = false).
  { unfold byte_is. apply Nat.eqb_neq. intros E.
    assert (c = "$"%char) as ->
        by (rewrite <- (ascii_nat_embedding c), E; reflexivity).
    discriminate Hc. }
  rewrite Hd. cbn [andb]. rewrite (IH Hs). reflexivity.
Qed.

(** X7. Fields are never empty, and a field without a dollar sign is its
    own expansion.  So a line that is not a comment and whose first two
    fields hold no dollar sign is always an entry, with the two fields as
    they are written for link path and target: the iteration prints no
    warning and goes straight to the work on the entry. *)
Theorem plain_fields_are_used_verbatim
        (dryRun : bool) (n : nat) (line f0 f1 : string) (more : list string) (fs : FS) :
  ~ comment_line line ->
  Fields line = f0 :: f1 :: more ->
  containsByte "$"%char f0 = false -> containsByte "$"%char f1 = false ->
  entry_line environ line f0 f1 /\
  loopBody environ dryRun n line fs = applyEntry dryRun n (Fields line) f0 f1 fs.
Proof.
  intros Hnc Hf H0 H1.
  assert (Hne : line <> "") by (intros ->; discriminate Hf).
  pose proof (fieldsFrom_nonempty line 0 "") as Hall. fold (Fields line) in Hall.
  rewrite Hf in Hall. inversion Hall as [|? ? Hf0 Hall']. inversion Hall' as [|? ? Hf1 _].
  assert (E0 : expandPath environ f0 = f0) by (apply expandFrom_no_dollar, H0).
  assert (E1 : expandPath environ f1 = f1) by (apply expandFrom_no_dollar, H1).
  split.
  - split; [exact Hne|]. split; [apply not_comment_line, Hnc|].
    exists f0, f1, more. rewrite E0, E1. repeat split; assumption.
  - unfold loopBody. apply isEmpty_false in Hne, Hf0, Hf1.
    rewrite Hne, (not_comment_line line Hnc), Hf.
    cbn [orb length Nat.ltb Nat.leb nth]. rewrite E0, E1, Hf0, Hf1, H0, H1.
    cbn [orb]. unfold bind, ret.
    destruct (applyEntry dryRun n (f0 :: f1 :: more) f0 f1 fs) as [[r fs1] t].
    reflexivity.
Qed.

(** X8. In a dry run an entry is looked at with two calls and no more:
    [os.Stat] on the directory of the link path and [os.Lstat] on the link
    path.  The target is not looked at. *)
Theorem dry_run_entry_probes
        (n : nat) (line symlinkPath actualPath : string) (fs : FS) :
  entry_line environ line symlinkPath actualPath ->
  filter is_fs_call (trace_of (loopBody environ true n line fs))
  = [SysStat (Dir symlinkPath); SysLstat symlinkPath].
Proof.
  intros Hentry.
  destruct (loopBody_entry true n line symlinkPath actualPath Hentry)
    as (printed & Hp & Hbody).
  pose proof (filter_output_free is_fs_call printed output_not_fs_call Hp) as Hq.
  rewrite Hbody, ensureDirExists_cases.
  destruct (os_IsNotExist (os_Stat fs (Dir symlinkPath)));
    rewrite createSymlink_dry_run; unfold trace_of; cbn [fst snd];
    rewrite !filter_app, Hq; destruct (os_Lstat fs symlinkPath); reflexivity.
Qed.

(** X9. On one and the same file system the dry run announces what apply
    mode would try: [ensureDirExists] prints that it would create the
    directory exactly when in apply mode it calls [os.MkdirAll], and
    [createSymlink] prints that it would remove what exists exactly when in
    apply mode it calls [os.RemoveAll]. *)
Theorem dry_run_announces_apply
        (path targetPath symlinkPath : string) (fs : FS) :
  (In (Stdout ("[DRY RUN] Would create directory: " ++ path ++ nl))
      (trace_of (ensureDirExists path true fs))
   <-> In (SysMkdirAll path perm_0755) (trace_of (ensureDirExists path false fs))) /\
  (In (Stdout ("[DRY RUN] Would remove existing: " ++ symlinkPath ++ nl))
      (trace_of (createSymlink targetPath symlinkPath true fs))
   <-> In (SysRemoveAll symlinkPath)
          (trace_of (createSymlink targetPath symlinkPath false fs))).
Proof.
  split.
  - rewrite !ensureDirExists_cases.
    destruct (os_IsNotExist (os_Stat fs path)); unfold trace_of; cbn [snd In].
    + split; intros _; auto 6.
    + split; intros [H | [H | []]]; discriminate H.
  - rewrite createSymlink_dry_run, createSymlink_apply.
    destruct (os_Lstat fs symlinkPath) as [e|]; unfold trace_of; cbn [snd In app].
    + split.
      * intros [H | [H | [H | []]]]; discriminate H.
      * intros [H | [H | [H | [H | []]]]]; discriminate H.
    + destruct (snd (os_RemoveAll fs symlinkPath)); cbn [snd In];
        split; intros _; auto 8.
Qed.

(** *** The listing of a dry run *)

Lemma printVars_lists_set_variables (vars : list string) (fs : FS) :
  printVars environ vars fs
  = (tt, fs,
     map (fun varName =>
            Stdout ("  " ++ varName ++ ": " ++ os_Getenv environ varName ++ nl))
         (filter (fun varName => negb (isEmpty (os_Getenv environ varName))) vars)).
Proof.
  induction vars as [|v rest IH]; [reflexivity|].
  cbn [printVars filter].
  destruct (negb (isEmpty (os_Getenv environ v))); run_m; rewrite IH; reflexivity.
Qed.

(** X10. [printEnvironmentInfo] writes nothing in apply mode.  In a dry run
    it writes the banner, a rule, a heading, then one line for each of the
    six names of [commonVars] that has a non-empty value, in the order of
    the list and with that value, and a rule again; names without a value
    are left out.  It calls nothing and changes nothing. *)
Theorem printEnvironmentInfo_lists_set_variables (dryRun : bool) (fs : FS) :
  printEnvironmentInfo environ dryRun fs
  = (tt, fs,
     if dryRun
     then ([Stdout (bannerMark ++ " DRY RUN MODE - No changes will be made" ++ nl);
            Stdout (Repeat "=" 51 ++ nl);
            Stdout ("Current environment variables:" ++ nl)]
           ++ environmentLines environ
           ++ [Stdout (Repeat "=" 51 ++ nl)])%list
     else []).
Proof.
  unfold printEnvironmentInfo, environmentLines. destruct dryRun; [|reflexivity].
  run_m. rewrite printVars_lists_set_variables. reflexivity.
Qed.

(** *** Files without entries *)

Lemma skipped_line_no_effect (dryRun : bool) (n : nat) (line : string) (fs : FS) :
  skipped_line environ line = true ->
  exists t, loopBody environ dryRun n line fs = (None, fs, t) /\
            filter is_fs_call t = [].
Proof.
  unfold skipped_line, loopBody. intros H.
  destruct (isEmpty line || commentRegex_MatchString line); [eexists; split; reflexivity|].
  destruct (Nat.ltb (length (Fields line)) 2); [eexists; split; reflexivity|].
  cbn [orb] in H.
  rewrite H. eexists; split; reflexivity.
Qed.

(** X11. A file in which every line is blank, a comment, short of a second
    field or left with an empty path after expansion has no effect in either
    mode: the loop runs to the end without an error, makes no call to the
    file system and leaves it as it is (all it may do is print warnings). *)
Theorem no_entry_no_effect (dryRun : bool) (lines : list string) (fs : FS) :
  forallb (skipped_line environ) lines = true ->
  forall k, exists t,
    scanLoop environ dryRun k lines fs = (None, fs, t) /\
    filter is_fs_call t = [] /\ forallb is_output t = true.
Proof.
  induction lines as [|line rest IH]; intros H k.
  - exists []. repeat split.
  - cbn [forallb] in H. apply andb_prop in H as [Hline Hrest].
    destruct (skipped_line_no_effect dryRun (S k) line fs Hline) as (t1 & Hbody & Ht1).
    destruct (IH Hrest (S k)) as (t2 & Hloop & Ht2 & Hout2).
    exists (t1 ++ t2)%list.
    rewrite (scanLoop_continue _ _ _ _ _ _ _ Hbody), Hloop.
    split; [reflexivity|]. split; [rewrite filter_app, Ht1, Ht2; reflexivity|].
    rewrite forallb_app, Hout2, andb_true_r.
    clear - Hbody Hline. unfold skipped_line, loopBody in *.
    destruct (isEmpty line || commentRegex_MatchString line);
      [injection Hbody as <-; reflexivity|].
    destruct (Nat.ltb (length (Fields line)) 2);
      [injection Hbody as <-; reflexivity|].
    cbn [orb] in Hline. rewrite Hline in Hbody. injection Hbody as <-. reflexivity.
Qed.

(** *** Directories and changes *)

Lemma Clean_not_empty (path : string) : Clean path <> "".
Proof.
  unfold Clean. destruct path as [|c path]; [discriminate|].
  destruct (cleanElems (isSlash c) 0 [] (splitSlash "" (String c path))) as [dd elems].
  destruct (isSlash c); [discriminate|].
  destruct (isEmpty (Join (repeat ".." dd ++ elems) "/")) eqn:E; [discriminate|].
  apply isEmpty_false, E.
Qed.

Lemma uptoLastSlash_no_slash (path : string) :
  containsByte "/"%char path = false -> uptoLastSlash path = "".
Proof.
  destruct path as [|c path]; [reflexivity|].
  cbn [containsByte uptoLastSlash]. intros H. apply orb_false_elim in H as [Hc Hp].
  rewrite Hp. unfold isSlash, byte_is.
  destruct (Nat.eqb (nat_of_ascii c) 47) eqn:E; [|reflexivity].
  apply Nat.eqb_eq in E.
  assert (c = "/"%char) as -> by (rewrite <- (ascii_nat_embedding c), E; reflexivity).
  discriminate Hc.
Qed.

(** X13. The directory that the loop hands to [ensureDirExists] (and the one
    that [getExecutablePath] returns) is never the empty path; for a link
    path without a slash it is the current directory, [.]. *)
Theorem symlinkDir_is_never_empty (path : string) :
  Dir path <> "" /\ (containsByte "/"%char path = false -> Dir path = ".").
Proof.
  split.
  - apply Clean_not_empty.
  - intros H. unfold Dir. rewrite (uptoLastSlash_no_slash path H). reflexivity.
Qed.


(** *** Warnings *)

Lemma applyEntry_no_warning
      (dryRun : bool) (n : nat) (fields : list string) (symlinkPath actualPath : string)
      (fs : FS) :
  filter is_warning (trace_of (applyEntry dryRun n fields symlinkPath actualPath fs)) = [].
Proof.
  unfold applyEntry. destruct dryRun; run_m; rewrite ensureDirExists_cases.
  - destruct (os_IsNotExist (os_Stat fs (Dir symlinkPath)));
      rewrite createSymlink_dry_run;
      destruct (os_Lstat fs symlinkPath); reflexivity.
  - destruct (os_IsNotExist (os_Stat fs (Dir symlinkPath))).
    + destruct (os_MkdirAll fs (Dir symlinkPath) perm_0755) as [fs1 [e|]]; cbn [fst snd].
      * reflexivity.
      * rewrite createSymlink_apply.
        destruct (os_Lstat fs1 symlinkPath) as [e|].
        -- destruct (snd (os_Symlink fs1 actualPath symlinkPath)); reflexivity.
        -- cbn zeta. destruct (snd (os_RemoveAll fs1 symlinkPath)); [reflexivity|].
           destruct (snd (os_Symlink (fst (os_RemoveAll fs1 symlinkPath))
                                     actualPath symlinkPath)); reflexivity.
    + rewrite createSymlink_apply.
      destruct (os_Lstat fs symlinkPath) as [e|].
      * destruct (snd (os_Symlink fs actualPath symlinkPath)); reflexivity.
      * cbn zeta. destruct (snd (os_RemoveAll fs symlinkPath)); [reflexivity|].
        destruct (snd (os_Symlink (fst (os_RemoveAll fs symlinkPath))
                                  actualPath symlinkPath)); reflexivity.
Qed.

Lemma loopBody_warnings (dryRun : bool) (n : nat) (line : string) (fs : FS) :
  filter is_warning (trace_of (loopBody environ dryRun n line fs))
  = lineWarnings environ n line.
Proof.
  unfold loopBody, lineWarnings.
  destruct (isEmpty line || commentRegex_MatchString line); [reflexivity|].
  destruct (Nat.ltb (length (Fields line)) 2); [reflexivity|].
  cbn zeta.
  set (sp := expandPath environ (nth 0 (Fields line) "")).
  set (ap := expandPath environ (nth 1 (Fields line) "")).
  destruct (isEmpty sp || isEmpty ap); [reflexivity|].
  pose proof (applyEntry_no_warning dryRun n (Fields line) sp ap fs) as Hquiet.
  destruct (containsByte "$"%char sp || containsByte "$"%char ap); run_m;
    destruct (applyEntry dryRun n (Fields line) sp ap fs) as [[r fs1] t];
    unfold trace_of in *; cbn [fst snd filter is_warning] in *.
  - rewrite Hquiet. reflexivity.
  - exact Hquiet.
Qed.

(** X15. The warnings do not depend on the mode nor on the state of the
    file system: a run in apply mode whose loop reaches the end of the file
    has printed the very warnings, in the same order, that a dry run over
    the same lines prints, on any file system. *)
Theorem warnings_are_the_same_in_both_modes (lines : list string) :
  forall (k : nat) (fs fs' fs1 : FS) (t : list event),
    scanLoop environ false k lines fs = (None, fs1, t) ->
    filter is_warning t
    = filter is_warning (trace_of (scanLoop environ true k lines fs')).
Proof.
  induction lines as [|line rest IH]; intros k fs fs' fs1 t H.
  - cbn in H. injection H as <- <-. reflexivity.
  - rewrite (scanLoop_continue _ _ _ _ _ _ _ (loopBody_dry_run (S k) line fs')).
    pose proof (loopBody_warnings false (S k) line fs) as Hw.
    pose proof (loopBody_warnings true (S k) line fs') as Hw'.
    cbn [scanLoop] in H. unfold bind in H.
    destruct (loopBody environ false (S k) line fs) as [[[e|] fsa] ta];
      [discriminate H|].
    destruct (scanLoop environ false (S k) rest fsa) as [[r fsb] tb] eqn:Hrest.
    injection H as -> -> <-.
    specialize (IH (S k) fsa fs' fs1 tb Hrest).
    destruct (scanLoop environ true (S k) rest fs') as [[r' fsc] tc].
    unfold trace_of in *. cbn [fst snd] in *.
    rewrite !filter_app, Hw, Hw', IH. reflexivity.
Qed.

(** *** Changes are announced *)

(** In this part [announcing] is about computations over [FS]. *)
Local Abbreviation announcing := (@announcing FS _).

Lemma announced_weaken (t : list event) :
  announced false t = true -> announced true t = true.
Proof.
  destruct t as [|e t]; [reflexivity|]. cbn [announced].
  intros H. apply andb_prop in H as [_ H]. rewrite H, orb_true_r. reflexivity.
Qed.

Lemma announced_app (t1 t2 : list event) :
  forall b, announced b t1 = true -> announced false t2 = true ->
            announced b (t1 ++ t2) = true.
Proof.
  induction t1 as [|e t1 IH]; intros b H1 H2.
  - destruct b; [apply announced_weaken|]; exact H2.
  - cbn [app announced] in *. apply andb_prop in H1 as [He H1].
    rewrite He, (IH _ H1 H2). reflexivity.
Qed.

Lemma announcing_ret {A : Type} (a : A) : announcing (ret a).
Proof. intros fs. reflexivity. Qed.

Lemma announcing_bind {A B : Type} (m : M FS A) (k : A -> M FS B) :
  announcing m -> (forall a, announcing (k a)) -> announcing (bind m k).
Proof.
  intros Hm Hk fs. unfold bind. specialize (Hm fs).
  destruct (m fs) as [[a fs1] t1]. specialize (Hk a fs1).
  destruct (k a fs1) as [[b fs2] t2].
  unfold trace_of in *. cbn [snd] in *. apply announced_app; assumption.
Qed.

Lemma announcing_emit (e : event) : is_mutation e = false -> announcing (emit e).
Proof.
  intros He fs. unfold emit, trace_of. cbn [snd announced]. rewrite He. reflexivity.
Qed.

Lemma announcing_ensureDirExists (path : string) (dryRun : bool) :
  announcing (ensureDirExists path dryRun).
Proof.
  intros fs. rewrite ensureDirExists_cases.
  destruct (os_IsNotExist (os_Stat fs path)), dryRun; reflexivity.
Qed.

Lemma announcing_createSymlink (targetPath symlinkPath : string) (dryRun : bool) :
  announcing (createSymlink targetPath symlinkPath dryRun).
Proof.
  intros fs. destruct dryRun.
  - rewrite createSymlink_dry_run. destruct (os_Lstat fs symlinkPath); reflexivity.
  - rewrite createSymlink_apply. destruct (os_Lstat fs symlinkPath); [reflexivity|].
    cbn zeta. destruct (snd (os_RemoveAll fs symlinkPath)); reflexivity.
Qed.

Lemma announcing_quiet_call {A : Type} (m : M FS A) :
  (forall fs, exists e, is_mutation e = false /\ trace_of (m fs) = [e]) -> announcing m.
Proof.
  intros H fs. destruct (H fs) as (e & He & ->). cbn [announced]. rewrite He. reflexivity.
Qed.

Ltac announcing_step :=
  first
    [ apply announcing_ret
    | apply announcing_ensureDirExists
    | apply announcing_createSymlink
    | apply announcing_emit; reflexivity
    | apply announcing_quiet_call; intros ?; eexists; split; [|reflexivity]; reflexivity
    | assumption
    | apply announcing_bind; [|intros ?]
    | match goal with
      | |- announcing (if ?b then _ else _) => destruct b
      | |- announcing (match ?x with _ => _ end) => destruct x
      end ].

Ltac announcing_steps := repeat announcing_step.

Lemma announcing_loopBody (dryRun : bool) (n : nat) (line : string) :
  announcing (loopBody environ dryRun n line).
Proof. unfold loopBody, applyEntry. announcing_steps. Qed.

Lemma announcing_scanLoop (dryRun : bool) (lines : list string) :
  forall k, announcing (scanLoop environ dryRun k lines).
Proof.
  induction lines as [|line rest IH]; intros k; cbn [scanLoop].
  - apply announcing_ret.
  - apply announcing_bind; [apply announcing_loopBody|].
    intros [e|]; [apply announcing_ret | apply IH].
Qed.

Lemma announcing_printVars (vars : list string) : announcing (printVars environ vars).
Proof.
  induction vars as [|v rest IH]; cbn [printVars]; announcing_steps.
Qed.


End Properties.

(* ===================================================================== *)
(** * Concrete runs *)
(* ===================================================================== *)

(** The theorems above, applied to runs on the in-memory file system. *)




(** Shows that a concrete line is an entry with the given fields. *)
Ltac concrete_entry f0 f1 more :=
  split; [discriminate|]; split; [reflexivity|];
  exists f0, f1, more;
  repeat split; first [reflexivity | discriminate].

(** C2 as written fails: with [/home/u] read-only, the directory of the
    second entry of the sample file cannot be created, and [createSymlink]
    is not entered. *)
Lemma entry_without_link_counterexample :
  entry_line sample_environ gitconfig_line
             "/home/u/.config/git/config" "/opt/tools/git/.gitconfig" /\
  filter is_entry_call (trace_of (loopBody sample_environ false 4 gitconfig_line readonly_fs))
  = [Enter_ensureDirExists "/home/u/.config/git" false] /\
  ~ one_ensure_then_one_link sample_environ false 4 gitconfig_line
      "/home/u/.config/git/config" "/opt/tools/git/.gitconfig" readonly_fs.
Proof.
  split.
  - concrete_entry "$HOME/.config/git/config" "$TOOLS_DIR/git/.gitconfig" (@nil string).
  - split; [reflexivity|].
    unfold one_ensure_then_one_link. vm_compute. discriminate.
Qed.

Lemma entry_ensures_then_links_witness :
  let dirStep := ensureDirExists (Dir "/home/u/.config/git/config") false readonly_fs in
  filter is_entry_call (trace_of (loopBody sample_environ false 4 gitconfig_line readonly_fs))
  = Enter_ensureDirExists (Dir "/home/u/.config/git/config") false ::
    match result_of dirStep with
    | None => [Enter_createSymlink "/opt/tools/git/.gitconfig"
                                   "/home/u/.config/git/config" false]
    | Some _ => []
    end /\
  (result_of dirStep <> None ->
   false = false /\
   os_IsNotExist (os_Stat readonly_fs (Dir "/home/u/.config/git/config")) = true /\
   snd (os_MkdirAll readonly_fs (Dir "/home/u/.config/git/config") perm_0755)
   = result_of dirStep) /\
  (false = true ->
   one_ensure_then_one_link sample_environ false 4 gitconfig_line
     "/home/u/.config/git/config" "/opt/tools/git/.gitconfig" readonly_fs).
Proof.
  apply (entry_ensures_then_links sample_environ false 4 gitconfig_line).
  concrete_entry "$HOME/.config/git/config" "$TOOLS_DIR/git/.gitconfig" (@nil string).
Defined.

(** C6 as written fails: with [/home/u] read-only, the file at the link
    path cannot be removed; [os.Symlink] is not called and the file stays. *)
Lemma removal_failure_counterexample :
  os_Lstat readonly_fs "/home/u/.zshrc" = None /\
  filter is_mutation
         (trace_of (createSymlink "/opt/tools/.zshrc" "/home/u/.zshrc" false readonly_fs))
  = [SysRemoveAll "/home/u/.zshrc"] /\
  fs_of (createSymlink "/opt/tools/.zshrc" "/home/u/.zshrc" false readonly_fs)
  = readonly_fs /\
  ~ removes_then_links "/opt/tools/.zshrc" "/home/u/.zshrc" readonly_fs.
Proof.
  split; [reflexivity|]. split; [reflexivity|]. split; [reflexivity|].
  unfold removes_then_links. vm_compute. discriminate.
Qed.

Lemma createSymlink_replaces_witness :
  removes_then_links "/opt/tools/.zshrc" "/home/u/.zshrc" sample_fs.
Proof.
  apply (createSymlink_replaces "/opt/tools/.zshrc" "/home/u/.zshrc" sample_fs).
  left. reflexivity.
Defined.

(** The target of a link need not exist: nothing is at [/opt/tools/.zshrc]
    in the sample system, and the link replaces the file that was at the
    link path. *)
Example dangling_link_is_created :
  lookup (nodes sample_fs) "/opt/tools/.zshrc" = None /\
  lookup (nodes sample_fs) "/home/u/.zshrc" = Some (Regular (mkFile ["old"] None)) /\
  let run := createSymlink "/opt/tools/.zshrc" "/home/u/.zshrc" false sample_fs in
  result_of run = None /\
  lookup (nodes (fs_of run)) "/home/u/.zshrc" = Some (Link "/opt/tools/.zshrc").
Proof. repeat split. Qed.

Lemma stat_error_is_ignored_witness :
  ensureDirExists (Dir "/home/u/.config/git/config") false denied_fs
  = (None, denied_fs,
     [Enter_ensureDirExists (Dir "/home/u/.config/git/config") false;
      SysStat (Dir "/home/u/.config/git/config")]) /\
  exists printed,
    forallb is_output printed = true /\
    trace_of (loopBody sample_environ false 4 gitconfig_line denied_fs)
    = (printed ++
       [Enter_ensureDirExists (Dir "/home/u/.config/git/config") false;
        SysStat (Dir "/home/u/.config/git/config")] ++
       trace_of (createSymlink "/opt/tools/git/.gitconfig" "/home/u/.config/git/config"
                               false denied_fs))%list /\
    fs_of (loopBody sample_environ false 4 gitconfig_line denied_fs)
    = fs_of (createSymlink "/opt/tools/git/.gitconfig" "/home/u/.config/git/config"
                           false denied_fs).
Proof.
  apply (stat_error_is_ignored sample_environ false 4 gitconfig_line
           "/home/u/.config/git/config" "/opt/tools/git/.gitconfig" denied_fs
           (EACCES "stat" "/home/u/.config/git")).
  - concrete_entry "$HOME/.config/git/config" "$TOOLS_DIR/git/.gitconfig" (@nil string).
  - reflexivity.
  - reflexivity.
Defined.

Lemma dry_run_fatal_conditions_witness :
  main sample_environ (mkFlags true false []) sample_fs
  = (0, sample_fs,
     trace_of (getExecutablePath sample_fs)
     ++ trace_of (printEnvironmentInfo sample_environ true sample_fs)
     ++ openingEvents (configFilePathFor [] "/usr/bin") true
     ++ lineEvents sample_environ 0 (file_lines sample_conf) sample_fs
     ++ [completeEvent true; SysClose (configFilePathFor [] "/usr/bin")])%list.
Proof.
  apply (proj2 (proj2 (proj2 (dry_run_fatal_conditions sample_environ [] sample_fs)))
           "/usr/bin" sample_conf); reflexivity.
Defined.

(** C3 as written fails in a dry run: the banner comes first. *)
Lemma banner_before_not_found_counterexample :
  result_of (getExecutablePath sample_fs) = Ok "/usr/bin" /\
  os_IsNotExist (os_Stat sample_fs (configFilePathFor ["/nope"] "/usr/bin")) = true /\
  hd_error (filter is_output
              (trace_of (main sample_environ (mkFlags true false ["/nope"]) sample_fs)))
  = Some (Stdout (bannerMark ++ " DRY RUN MODE - No changes will be made" ++ nl)) /\
  ~ not_found_reported_first sample_environ true ["/nope"] "/nope" sample_fs.
Proof.
  split; [reflexivity|]. split; [reflexivity|]. split; [reflexivity|].
  intros [_ [rest H]]. vm_compute in H. discriminate H.
Qed.

Lemma missing_config_reported_witness :
  let run := main sample_environ (mkFlags false false ["/nope"]) sample_fs in
  result_of run = 1 /\ fs_of run = sample_fs /\
  filter is_output (trace_of run)
  = (trace_of (printEnvironmentInfo sample_environ false sample_fs)
     ++ [notFoundMessage (configFilePathFor ["/nope"] "/usr/bin")])%list /\
  (false = false ->
   not_found_reported_first sample_environ false ["/nope"]
     (configFilePathFor ["/nope"] "/usr/bin") sample_fs).
Proof.
  apply (missing_config_reported sample_environ false ["/nope"] "/usr/bin" sample_fs);
    reflexivity.
Defined.

Lemma entry_failure_aborts_run_witness :
  let failing := loopBody sample_environ false 4 gitconfig_line
                   (fs_of (scanLoop sample_environ false 0
                             ["# ZSH config"; ""; zshrc_line] config_readonly_fs)) in
  exists err,
    result_of failing = Some err /\
    main sample_environ (mkFlags false false []) config_readonly_fs
    = (1, fs_of failing,
       trace_of (getExecutablePath config_readonly_fs)
       ++ openingEvents (configFilePathFor [] "/usr/bin") false
       ++ trace_of (scanLoop sample_environ false 0
                      ["# ZSH config"; ""; zshrc_line] config_readonly_fs)
       ++ trace_of failing
       ++ [SysClose (configFilePathFor [] "/usr/bin");
           Stdout ("Error: " ++ Error err ++ nl)])%list.
Proof.
  apply (entry_failure_aborts_run sample_environ [] "/usr/bin" sample_conf
           ["# ZSH config"; ""; zshrc_line] ["$HOME/.vimrc"; "   "] gitconfig_line
           "/home/u/.config/git/config" "/opt/tools/git/.gitconfig" config_readonly_fs).
  - reflexivity.
  - reflexivity.
  - reflexivity.
  - reflexivity.
  - reflexivity.
  - concrete_entry "$HOME/.config/git/config" "$TOOLS_DIR/git/.gitconfig" (@nil string).
  - left. split; [reflexivity | vm_compute; discriminate].
Defined.

(** ** Runs for the further properties *)

Lemma executable_failure_is_fatal_witness :
  let run := main sample_environ (mkFlags false false ["/usr/bin/symlinker.conf"])
                  no_executable_fs in
  result_of run = 1 /\ fs_of run = no_executable_fs /\
  filter is_output (trace_of run)
  = [Stdout ("Error getting executable path: "
             ++ Error (mkError "cannot find executable path" false) ++ nl)] /\
  filter is_fs_call (trace_of run)
  = SysExecutable :: match os_Executable no_executable_fs with
                     | Ok exe => [SysEvalSymlinks exe]
                     | Failed _ => []
                     end.
Proof.
  apply (executable_failure_is_fatal sample_environ false ["/usr/bin/symlinker.conf"]
           no_executable_fs (mkError "cannot find executable path" false)).
  reflexivity.
Defined.

Lemma open_failure_is_fatal_witness :
  main sample_environ (mkFlags true false []) unreadable_conf_fs
  = (1, unreadable_conf_fs,
     trace_of (getExecutablePath unreadable_conf_fs)
     ++ trace_of (printEnvironmentInfo sample_environ true unreadable_conf_fs)
     ++ openingEvents (configFilePathFor [] "/usr/bin") true
     ++ [Stdout ("Error: error opening config file: "
                 ++ Error (EACCES "open" "/usr/bin/symlinker.conf") ++ nl)])%list.
Proof.
  apply (open_failure_is_fatal sample_environ true [] "/usr/bin" unreadable_conf_fs
           (EACCES "open" "/usr/bin/symlinker.conf")); reflexivity.
Defined.

Lemma scan_error_after_processing_witness :
  main sample_environ (mkFlags false false ["/etc/links.conf"]) interrupted_fs
  = (1, fs_of (scanLoop sample_environ false 0 [zshrc_line] interrupted_fs),
     trace_of (getExecutablePath interrupted_fs)
     ++ trace_of (printEnvironmentInfo sample_environ false interrupted_fs)
     ++ openingEvents (configFilePathFor ["/etc/links.conf"] "/usr/bin") false
     ++ trace_of (scanLoop sample_environ false 0 [zshrc_line] interrupted_fs)
     ++ [SysClose (configFilePathFor ["/etc/links.conf"] "/usr/bin");
         Stdout ("Error: error reading config file: "
                 ++ Error (pathError "read" "/etc/links.conf" "input/output error" false)
                 ++ nl)])%list.
Proof.
  apply (scan_error_after_processing sample_environ false ["/etc/links.conf"] "/usr/bin"
           interrupted_conf interrupted_fs); reflexivity.
Defined.

Lemma same_paths_same_effect_witness :
  let run1 := loopBody sample_environ false 3 zshrc_line sample_fs in
  let run2 := loopBody sample_environ false 3 (zshrc_line ++ " # my shell") sample_fs in
  fs_of run1 = fs_of run2 /\
  filter is_fs_call (trace_of run1) = filter is_fs_call (trace_of run2) /\
  result_of run1 = result_of run2.
Proof.
  apply (same_paths_same_effect sample_environ false 3 zshrc_line
           (zshrc_line ++ " # my shell") "/home/u/.zshrc" "/opt/tools/.zshrc" sample_fs).
  - concrete_entry "$HOME/.zshrc" "$TOOLS_DIR/.zshrc" (@nil string).
  - concrete_entry "$HOME/.zshrc" "$TOOLS_DIR/.zshrc" ["#"; "my"; "shell"].
Defined.

Lemma plain_fields_are_used_verbatim_witness :
  entry_line sample_environ "/home/u/.vimrc /opt/tools/.vimrc"
             "/home/u/.vimrc" "/opt/tools/.vimrc" /\
  loopBody sample_environ true 1 "/home/u/.vimrc /opt/tools/.vimrc" sample_fs
  = applyEntry true 1 (Fields "/home/u/.vimrc /opt/tools/.vimrc")
               "/home/u/.vimrc" "/opt/tools/.vimrc" sample_fs.
Proof.
  apply (plain_fields_are_used_verbatim sample_environ true 1
           "/home/u/.vimrc /opt/tools/.vimrc" "/home/u/.vimrc" "/opt/tools/.vimrc"
           (@nil string) sample_fs).
  - intros H. apply comment_line_matches in H. discriminate H.
  - reflexivity.
  - reflexivity.
  - reflexivity.
Defined.

Lemma dry_run_entry_probes_witness :
  filter is_fs_call (trace_of (loopBody sample_environ true 3 zshrc_line sample_fs))
  = [SysStat (Dir "/home/u/.zshrc"); SysLstat "/home/u/.zshrc"].
Proof.
  apply (dry_run_entry_probes sample_environ 3 zshrc_line
           "/home/u/.zshrc" "/opt/tools/.zshrc" sample_fs).
  concrete_entry "$HOME/.zshrc" "$TOOLS_DIR/.zshrc" (@nil string).
Defined.

Lemma no_entry_no_effect_witness :
  exists t,
    scanLoop sample_environ false 0 ["# ZSH config"; ""; "$HOME/.vimrc"; "$UNSET /tmp/x"]
             sample_fs
    = (None, sample_fs, t) /\
    filter is_fs_call t = [] /\ forallb is_output t = true.
Proof.
  apply (no_entry_no_effect sample_environ false
           ["# ZSH config"; ""; "$HOME/.vimrc"; "$UNSET /tmp/x"] sample_fs).
  reflexivity.
Defined.

Lemma symlinkDir_is_never_empty_witness : Dir ".zshrc" = ".".
Proof.
  apply (proj2 (symlinkDir_is_never_empty ".zshrc")). reflexivity.
Defined.


Lemma warnings_are_the_same_in_both_modes_witness :
  filter is_warning (trace_of (scanLoop sample_environ false 0 (file_lines sample_conf)
                                        sample_fs))
  = filter is_warning (trace_of (scanLoop sample_environ true 0 (file_lines sample_conf)
                                          readonly_fs)).
Proof.
  apply (warnings_are_the_same_in_both_modes sample_environ (file_lines sample_conf) 0
           sample_fs readonly_fs
           (fs_of (scanLoop sample_environ false 0 (file_lines sample_conf) sample_fs))).
  reflexivity.
Defined.
